(** * The physical-name lifecycle of [Resource] (core/lib/resource.ts) and
      the helpers of aws-rds/lib/private/util.ts

    A shallow embedding: every TypeScript function is a Rocq function of the
    same name.  Methods that mutate [this] or a scope, or that throw, live in
    a state-and-exception monad whose runs return the final state also when
    the method throws, so that what a failed call leaves behind can be
    stated. *)

From Stdlib Require Import String List Bool Arith Lia.
Import ListNotations.
Open Scope string_scope.

(** ** JavaScript values *)

Module JS.

(** Truthiness of a string: every string but the empty one. *)
Definition truthy (s : string) : bool := negb (s =? "").

(** Truthiness of a [string | undefined]. *)
Definition truthy_opt (o : option string) : bool :=
  match o with
  | Some s => truthy s
  | None => false
  end.

(** The condition [x && f(x)] for [x : string | undefined]: [f] is only
    evaluated on a truthy [x]. *)
Definition and_then (o : option string) (f : string -> bool) : bool :=
  match o with
  | Some s => truthy s && f s
  | None => false
  end.

(** [a ?? d]: only [undefined] selects the default. *)
Definition nullish {A : Type} (o : option A) (d : A) : A :=
  match o with
  | Some a => a
  | None => d
  end.

(** Truthiness of an object reference or [undefined]. *)
Definition defined {A : Type} (o : option A) : bool :=
  match o with
  | Some _ => true
  | None => false
  end.

End JS.

(** ** Methods: state passing with exceptions *)

Inductive Outcome (A : Type) : Type :=
| Returns (a : A)
| Throws (msg : string).
Arguments Returns {A} a.
Arguments Throws {A} msg.

(** A method over a mutable state [S]: the outcome, and the state it leaves. *)
Definition Method (S A : Type) : Type := S -> Outcome A * S.

Definition ret {S A : Type} (a : A) : Method S A := fun s => (Returns a, s).

Definition throw {S A : Type} (msg : string) : Method S A :=
  fun s => (Throws msg, s).

Definition bind {S A B : Type} (m : Method S A) (k : A -> Method S B)
  : Method S B :=
  fun s =>
    match m s with
    | (Returns a, s') => k a s'
    | (Throws msg, s') => (Throws msg, s')
    end.

Definition get {S : Type} : Method S S := fun s => (Returns s, s).

Definition put {S : Type} (s : S) : Method S unit := fun _ => (Returns tt, s).

Declare Scope method_scope.
Delimit Scope method_scope with method.
Notation "x <- m ;; k" := (bind m (fun x => k))
  (at level 100, m at next level, right associativity) : method_scope.
Notation "m ;;; k" := (bind m (fun _ => k))
  (at level 100, right associativity) : method_scope.

Definition outcome {S A : Type} (r : Outcome A * S) : Outcome A := fst r.
Definition final {S A : Type} (r : Outcome A * S) : S := snd r.

(** ** core/lib/resource.ts: the data *)

(** What resource.ts reads of a [Stack] (stack.ts is not part of the
    sources): the three string properties [account], [region] and
    [environment].  No relation between them is assumed. *)
Module Stack.
Record t : Type := mk
  { account : string;
    region : string;
    environment : string }.
End Stack.

(** [ResourceEnvironment]. *)
Module ResourceEnvironment.
Record t : Type := mk
  { account : string;
    region : string }.
End ResourceEnvironment.

(** [ResourceProps]: each property is optional. *)
Module ResourceProps.
Record t : Type := mk
  { physicalName : option string;
    account : option string;
    region : option string }.

(** The default [props = {}]. *)
Definition empty : t := mk None None None.
End ResourceProps.

(** Modelled from the spec: the construct tree (construct-compat.ts and
    stack.ts are not part of the sources).  "Each node additionally carries
    an owning scope (used to determine environment for cross-environment
    checks)": a construct is reduced to its path and the stack that
    [Stack.of] finds for it. *)
Module IConstruct.
Record t : Type := mk
  { path : string;
    owner : Stack.t }.
End IConstruct.

Definition Stack_of (c : IConstruct.t) : Stack.t := IConstruct.owner c.

(** [super(scope, id)]: the new node's path below [scope]. *)
Definition child_path (scope : IConstruct.t) (id : string) : string :=
  IConstruct.path scope ++ "/" ++ id.

(** [IResolveContext]: resource.ts reads [context.scope] only. *)
Module IResolveContext.
Record t : Type := mk { scope : IConstruct.t }.
End IResolveContext.

(** The string-typed values resource.ts handles.  A token minted by
    resource.ts itself is a constructor of its own, since the registry
    never hands out an encoding that collides with a string the caller
    already holds. *)
Inductive StrVal : Type :=
| Str (s : string)
    (** a string as the caller passed it (token markers included) *)
| LazyPhysicalName
    (** [Lazy.stringValue({ produce: () => this._physicalName })] *)
| UndefinedToken.
    (** [Token.asString(undefined)] *)

(** The fields of a [Resource]; only [_physicalName] is not [readonly]. *)
Module Resource.
Record t : Type := mk
  { node_path : string;
    stack : Stack.t;
    env : ResourceEnvironment.t;
    physicalName : StrVal;
    _physicalName : option string;
    _allowCrossEnvironment : bool }.

Definition set__physicalName (v : option string) (r : t) : t :=
  mk (node_path r) (stack r) (env r) (physicalName r) v
     (_allowCrossEnvironment r).
End Resource.

(** The imports of resource.ts that are not part of the sources, taken as
    parameters: [Token.isUnresolved] (token.ts),
    [isGeneratedWhenNeededMarker] and [generatePhysicalName]
    (private/physical-name-generator.ts), [ArnComponents] (arn.ts) and
    [Stack.formatArn] (stack.ts). *)
Class Core : Type :=
  { ArnComponents : Type;
    Token_isUnresolved : string -> bool;
    isGeneratedWhenNeededMarker : string -> bool;
    generatePhysicalName : Resource.t -> string;
    Stack_formatArn : Stack.t -> ArnComponents -> string }.

(** Modelled from the spec: the deferred values of lazy.ts and token.ts
    (not part of the sources).  "[resolve(context) -> value] invokes the
    computation exactly once per distinct resolution call (not memoized
    across different contexts)": a deferred value is its producer, and
    resolving it at a context runs the producer at that context, on the
    object the producer closes over. *)
Module IResolvable.
Record t (S A : Type) : Type := mk
  { resolve : IResolveContext.t -> Method S A }.
Arguments mk {S A} resolve.
Arguments resolve {S A} _ _.
End IResolvable.

(** [Lazy.stringValue({ produce })]. *)
Module Lazy.
Definition stringValue {S A : Type} (produce : IResolveContext.t -> Method S A)
  : IResolvable.t S A :=
  IResolvable.mk produce.
End Lazy.

(** [Token.asString({ resolve })]. *)
Definition Token_asString {S A : Type} (value : IResolvable.t S A)
  : IResolvable.t S A :=
  value.

(** ** core/lib/resource.ts: the methods *)

Section ResourceMethods.

Context {core : Core}.

Local Open Scope method_scope.

(** [constructor(scope, id, props = {})]. *)
Definition Resource_constructor
    (scope : IConstruct.t) (id : string) (props : ResourceProps.t)
  : Resource.t :=
  let stack := Stack_of scope in
  let env :=
    ResourceEnvironment.mk
      (JS.nullish (ResourceProps.account props) (Stack.account stack))
      (JS.nullish (ResourceProps.region props) (Stack.region stack)) in
  let physicalName := option_map Str (ResourceProps.physicalName props) in
  let '(_physicalName, _allowCrossEnvironment, physicalName) :=
    if JS.and_then (ResourceProps.physicalName props)
         isGeneratedWhenNeededMarker
    then
      (* auto-generate only if cross-env is required *)
      (None, true, Some LazyPhysicalName)
    else if JS.and_then (ResourceProps.physicalName props)
              (fun s => negb (Token_isUnresolved s))
    then
      (* concrete value specified by the user *)
      (ResourceProps.physicalName props, true, physicalName)
    else
      (* either undefined (deploy-time) or has tokens *)
      (ResourceProps.physicalName props, false, physicalName) in
  let physicalName :=
    match physicalName with
    | None => UndefinedToken
    | Some v => v
    end in
  Resource.mk (child_path scope id) stack env physicalName
    _physicalName _allowCrossEnvironment.

(** The message of the error [_enableCrossEnvironment] throws. *)
Definition crossEnvironmentError (path : string) : string :=
  "Cannot use resource '" ++ path ++ "' in a cross-environment fashion, "
  ++ "the resource's physical name must be explicit set or use "
  ++ "`PhysicalName.GENERATE_IF_NEEDED`".

(** The method [generatePhysicalName()]. *)
Definition Resource_generatePhysicalName : Method Resource.t string :=
  this <- get ;;
  ret (generatePhysicalName this).

(** [_enableCrossEnvironment()]. *)
Definition _enableCrossEnvironment : Method Resource.t unit :=
  this <- get ;;
  if negb (Resource._allowCrossEnvironment this) then
    throw (crossEnvironmentError (Resource.node_path this))
  else if negb (JS.truthy_opt (Resource._physicalName this)) then
    name <- Resource_generatePhysicalName ;;
    put (Resource.set__physicalName (Some name) this)
  else
    ret tt.

(** [getResourceNameAttribute(nameAttr)]. *)
Definition getResourceNameAttribute (nameAttr : string)
  : IResolvable.t Resource.t StrVal :=
  Lazy.stringValue (fun context =>
    this <- get ;;
    let consumingStack := Stack_of (IResolveContext.scope context) in
    if negb (Stack.environment (Resource.stack this)
             =? Stack.environment consumingStack)
    then
      _enableCrossEnvironment ;;;
      this <- get ;;
      ret (Resource.physicalName this)
    else
      ret (Str nameAttr)).

(** [getResourceArnAttribute(arnAttr, arnComponents)]. *)
Definition getResourceArnAttribute
    (arnAttr : string) (arnComponents : ArnComponents)
  : IResolvable.t Resource.t StrVal :=
  Token_asString (IResolvable.mk (fun context =>
    this <- get ;;
    let consumingStack := Stack_of (IResolveContext.scope context) in
    if negb (Stack.environment (Resource.stack this)
             =? Stack.environment consumingStack)
    then
      _enableCrossEnvironment ;;;
      this <- get ;;
      ret (Str (Stack_formatArn (Resource.stack this) arnComponents))
    else
      ret (Str arnAttr))).

(** What the resolver makes of a value a producer of this file returned:
    the lazy physical name is resolved in turn, by its producer
    [() => this._physicalName]; a string is handed on as it is (the tokens
    a caller's string may embed are the caller's, and are not followed
    here). *)
Definition resolveStr (v : StrVal) : Method Resource.t (option string) :=
  match v with
  | Str s => ret (Some s)
  | LazyPhysicalName => this <- get ;; ret (Resource._physicalName this)
  | UndefinedToken => ret None
  end.

End ResourceMethods.


(** ** The lifecycle states of the specification *)

(** The four states of a physical name, read off the two private fields and
    the public [physicalName]: without the allowance the name is [Unset];
    with it, a falsy [_physicalName] (what [_enableCrossEnvironment] tests)
    is a name still to be generated; a truthy one was generated when the
    public name is the lazy token, and given by the caller otherwise. *)
Inductive PhysicalNameState : Type :=
| Unset
| DeferredIfNeeded
| Generated
| Explicit.

Definition state_of (r : Resource.t) : PhysicalNameState :=
  if negb (Resource._allowCrossEnvironment r) then Unset
  else if negb (JS.truthy_opt (Resource._physicalName r)) then DeferredIfNeeded
  else match Resource.physicalName r with
       | LazyPhysicalName => Generated
       | _ => Explicit
       end.

(** The environment of a stack, as a [ResourceEnvironment]. *)
Definition environment_of (s : Stack.t) : ResourceEnvironment.t :=
  ResourceEnvironment.mk (Stack.account s) (Stack.region s).

(** The results of [Token.compareStrings]. *)
Inductive TokenComparison : Type :=
| SAME
| DIFFERENT
| ONE_UNRESOLVED
| BOTH_UNRESOLVED.

Section Specification.

Context {core : Core}.

(** Modelled from the spec: the token-aware comparison of two strings
    ([Token.compareStrings], named by the doc comments of
    [ResourceEnvironment]; token.ts is not part of the sources).  "Equality
    between environments must use token-aware comparison, not raw string
    equality": strings without tokens compare as strings, and a string with
    tokens is not known to be the same as any other. *)
Definition Token_compareStrings (a b : string) : TokenComparison :=
  match Token_isUnresolved a, Token_isUnresolved b with
  | true, true => BOTH_UNRESOLVED
  | true, false | false, true => ONE_UNRESOLVED
  | false, false => if a =? b then SAME else DIFFERENT
  end.

Definition is_same (c : TokenComparison) : bool :=
  match c with
  | SAME => true
  | _ => false
  end.

(** Equality of two environments under the token-aware comparison. *)
Definition sameEnvironment (e1 e2 : ResourceEnvironment.t) : bool :=
  is_same (Token_compareStrings (ResourceEnvironment.account e1)
                                (ResourceEnvironment.account e2))
  && is_same (Token_compareStrings (ResourceEnvironment.region e1)
                                   (ResourceEnvironment.region e2)).

(** ** Sequences of operations on one resource *)

(** What can happen to a resource after its construction: a direct call of
    [_enableCrossEnvironment], or the resolution of one of its attribute
    tokens at some context. *)
Inductive Operation : Type :=
| EnableCrossEnvironment
| ResolveName (nameAttr : string) (context : IResolveContext.t)
| ResolveArn (arnAttr : string) (arnComponents : ArnComponents)
    (context : IResolveContext.t).

(** The state an operation leaves, whether it returned or threw. *)
Definition perform (op : Operation) (r : Resource.t) : Resource.t :=
  match op with
  | EnableCrossEnvironment => final (_enableCrossEnvironment r)
  | ResolveName nameAttr context =>
      final (IResolvable.resolve (getResourceNameAttribute nameAttr) context r)
  | ResolveArn arnAttr arnComponents context =>
      final (IResolvable.resolve (getResourceArnAttribute arnAttr arnComponents)
               context r)
  end.

Fixpoint perform_all (ops : list Operation) (r : Resource.t) : Resource.t :=
  match ops with
  | [] => r
  | op :: ops' => perform_all ops' (perform op r)
  end.

(** The resource after a successful cross-environment request: the name is
    generated when there is none yet. *)
Definition named (r : Resource.t) : Resource.t :=
  if JS.truthy_opt (Resource._physicalName r) then r
  else Resource.set__physicalName (Some (generatePhysicalName r)) r.

(** The [readonly] fields of two resources agree. *)
Definition same_readonly (r r' : Resource.t) : Prop :=
  Resource.node_path r' = Resource.node_path r
  /\ Resource.stack r' = Resource.stack r
  /\ Resource.env r' = Resource.env r
  /\ Resource.physicalName r' = Resource.physicalName r
  /\ Resource._allowCrossEnvironment r' = Resource._allowCrossEnvironment r.

(** ** The specification's sentences where the code differs *)

(** The decision as the specification words it: the name attribute
    resolves to [nameAttr] exactly when the environment of the resource
    ([this.env]) and that of the consuming stack are the same under the
    token-aware comparison. *)
Definition name_decision_as_specified
    (r : Resource.t) (context : IResolveContext.t) (nameAttr : string)
  : Prop :=
  outcome (IResolvable.resolve (getResourceNameAttribute nameAttr) context r)
  = Returns (Str nameAttr)
  <-> sameEnvironment (Resource.env r)
        (environment_of (Stack_of (IResolveContext.scope context))) = true.

(** "Passing an explicit concrete (token-free) name puts it in state
    Explicit with cross-environment references allowed." *)
Definition explicit_name_as_specified
    (scope : IConstruct.t) (id : string) (props : ResourceProps.t) : Prop :=
  forall name,
    ResourceProps.physicalName props = Some name ->
    isGeneratedWhenNeededMarker name = false ->
    Token_isUnresolved name = false ->
    state_of (Resource_constructor scope id props) = Explicit
    /\ Resource._allowCrossEnvironment (Resource_constructor scope id props)
       = true.

(** "For every resource in state Unset, ... resolving the resource's
    name/ARN attribute from a scope in a different environment fails ...
    and leaves the resource's physical-name state unchanged": the scope's
    environment differs from the environment of the resource ([this.env])
    under the token-aware comparison. *)
Definition denial_as_specified
    (r : Resource.t) (context : IResolveContext.t) (nameAttr : string)
  : Prop :=
  Resource._allowCrossEnvironment r = false ->
  sameEnvironment (Resource.env r)
    (environment_of (Stack_of (IResolveContext.scope context))) = false ->
  IResolvable.resolve (getResourceNameAttribute nameAttr) context r
  = (Throws (crossEnvironmentError (Resource.node_path r)), r).

(** "Resolving the same token under a consuming scope in the same
    environment yields nameAttr, while resolving it under a consuming
    scope in a different environment yields the resource's physical
    name", for every resource and every scope. *)
Definition name_resolution_as_specified
    (r : Resource.t) (context : IResolveContext.t) (nameAttr : string)
  : Prop :=
  if sameEnvironment (Resource.env r)
       (environment_of (Stack_of (IResolveContext.scope context)))
  then outcome
         (IResolvable.resolve (getResourceNameAttribute nameAttr) context r)
       = Returns (Str nameAttr)
  else outcome
         (IResolvable.resolve (getResourceNameAttribute nameAttr) context r)
       = Returns (Resource.physicalName r).

(** "Constructing a Resource with physicalName equal to the empty string
    behaves exactly like constructing it with no physical name at all: ...
    the resource's physicalName property becomes the string-encoded token
    for undefined." *)
Definition empty_name_as_specified
    (scope : IConstruct.t) (id : string) (account region : option string)
  : Prop :=
  Resource._allowCrossEnvironment
    (Resource_constructor scope id (ResourceProps.mk (Some "") account region))
  = false
  /\ Resource.physicalName
       (Resource_constructor scope id
          (ResourceProps.mk (Some "") account region))
     = UndefinedToken.

End Specification.

(** ** A concrete instance of the imports, to run the model *)

Module Sample.

Definition has_token (s : string) : bool :=
  match index 0 "${Token[" s with
  | Some _ => true
  | None => false
  end.

(** The string under which the marker [PhysicalName.GENERATE_IF_NEEDED]
    reaches the constructor. *)
Definition GENERATE_IF_NEEDED : string := "${Token[TOKEN.0]}".

Record Arn : Type := mkArn
  { service : string;
    resource : string;
    resourceName : string }.

Definition formatArn (s : Stack.t) (c : Arn) : string :=
  "arn:aws:" ++ service c ++ ":" ++ Stack.region s ++ ":" ++ Stack.account s
  ++ ":" ++ resource c ++ "/" ++ resourceName c.

Definition core : Core :=
  {| ArnComponents := Arn;
     Token_isUnresolved := has_token;
     isGeneratedWhenNeededMarker := fun s => s =? GENERATE_IF_NEEDED;
     generatePhysicalName := fun r => "generated:" ++ Resource.node_path r;
     Stack_formatArn := formatArn |}.

Definition stackA : Stack.t :=
  Stack.mk "111111111111" "us-east-1" "aws://111111111111/us-east-1".

Definition stackB : Stack.t :=
  Stack.mk "222222222222" "eu-west-1" "aws://222222222222/eu-west-1".

Definition scopeA : IConstruct.t := IConstruct.mk "App/StackA" stackA.
Definition scopeB : IConstruct.t := IConstruct.mk "App/StackB" stackB.

Definition fromA : IResolveContext.t := IResolveContext.mk scopeA.
Definition fromB : IResolveContext.t := IResolveContext.mk scopeB.

Definition props_of (name : option string) : ResourceProps.t :=
  ResourceProps.mk name None None.

(** A bucket of stack A, by the physical name it was given. *)
Definition bucket (name : option string) : Resource.t :=
  Resource_constructor (core := core) scopeA "MyBucket" (props_of name).

(** A resource of stack A whose props place it in the account of stack B. *)
Definition foreign : Resource.t :=
  Resource_constructor (core := core) scopeA "Imported"
    (ResourceProps.mk (Some "my-bucket") (Some "222222222222") None).

End Sample.

(** A resource of stack A without a physical name, whose props place it
    in the account of stack B. *)
Definition unnamed_foreign : Resource.t :=
  Resource_constructor (core := Sample.core) Sample.scopeA "Imported"
    (ResourceProps.mk None (Some "222222222222") None).

(** ** aws-rds/lib/private/util.ts *)

Module Rds.

Local Open Scope method_scope.

(** [iam.IRole]: a role object the caller holds, or the one that
    [new iam.Role(scope, id, { assumedBy: new iam.ServicePrincipal(s) })]
    makes. *)
Inductive IRole : Type :=
| ExistingRole (name : string)
| Role (id : string) (assumedBy : string).

(** [s3.IBucket]. *)
Inductive IBucket : Type :=
| Bucket (name : string).

Inductive Access : Type :=
| Read
| ReadWrite.

(** What [setupS3ImportExport] changes: the roles created below [scope]
    and the grants made on buckets, the newest first. *)
Record Scope : Type := mkScope
  { roles : list IRole;
    grants : list (IBucket * Access * IRole) }.

(** [DatabaseS3ImportExportProps]. *)
Record DatabaseS3ImportExportProps : Type := mkProps
  { s3ImportRole : option IRole;
    s3ImportBuckets : option (list IBucket);
    s3ExportRole : option IRole;
    s3ExportBuckets : option (list IBucket) }.

(** [new iam.Role(scope, id, { assumedBy: new iam.ServicePrincipal(s) })];
    aws-iam is not part of the sources, and the construction is total
    here. *)
Definition new_Role (id service : string) : Method Scope IRole :=
  fun s =>
    (Returns (Role id service),
     mkScope (Role id service :: roles s) (grants s)).

Definition grant (access : Access) (bucket : IBucket) (role : IRole)
  : Method Scope unit :=
  fun s => (Returns tt, mkScope (roles s) ((bucket, access, role) :: grants s)).

(** [bucket.grantRead(role)] and [bucket.grantReadWrite(role)]. *)
Definition grantRead : IBucket -> IRole -> Method Scope unit := grant Read.
Definition grantReadWrite : IBucket -> IRole -> Method Scope unit :=
  grant ReadWrite.

(** [for (const x of xs) { body }]. *)
Fixpoint for_of {S A : Type} (xs : list A) (body : A -> Method S unit)
  : Method S unit :=
  match xs with
  | [] => ret tt
  | x :: xs' => body x ;;; for_of xs' body
  end.

(** The condition [buckets && buckets.length > 0]. *)
Definition nonEmpty (buckets : option (list IBucket)) : bool :=
  match buckets with
  | Some (_ :: _) => true
  | _ => false
  end.

(** The value of [combineRoles && role] when it is truthy. *)
Definition and_role (combineRoles : option bool) (role : option IRole)
  : option IRole :=
  match combineRoles with
  | Some true => role
  | _ => None
  end.

Definition importError : string :=
  "Only one of s3ImportRole or s3ImportBuckets must be specified, not both.".

Definition exportError : string :=
  "Only one of s3ExportRole or s3ExportBuckets must be specified, not both.".

(** [setupS3ImportExport(scope, props, combineRoles?)]; the state is
    [scope]. *)
Definition setupS3ImportExport
    (props : DatabaseS3ImportExportProps) (combineRoles : option bool)
  : Method Scope (option IRole * option IRole) :=
  let s3ImportRole := s3ImportRole props in
  let s3ExportRole := s3ExportRole props in
  s3ImportRole <-
    (if nonEmpty (s3ImportBuckets props) then
       if JS.defined (Rds.s3ImportRole props) then throw importError
       else
         role <- match and_role combineRoles s3ExportRole with
                 | Some reused => ret reused
                 | None => new_Role "S3ImportRole" "rds.amazonaws.com"
                 end ;;
         for_of (JS.nullish (s3ImportBuckets props) [])
           (fun bucket => grantRead bucket role) ;;;
         ret (Some role)
     else ret s3ImportRole) ;;
  s3ExportRole <-
    (if nonEmpty (s3ExportBuckets props) then
       if JS.defined (Rds.s3ExportRole props) then throw exportError
       else
         role <- match and_role combineRoles s3ImportRole with
                 | Some reused => ret reused
                 | None => new_Role "S3ExportRole" "rds.amazonaws.com"
                 end ;;
         for_of (JS.nullish (s3ExportBuckets props) [])
           (fun bucket => grantReadWrite bucket role) ;;;
         ret (Some role)
     else ret s3ExportRole) ;;
  ret (s3ImportRole, s3ExportRole).

(** [RemovalPolicy] of @aws-cdk/core (not part of the sources). *)
Inductive RemovalPolicy : Type :=
| DESTROY
| RETAIN
| SNAPSHOT.

Definition RemovalPolicy_eqb (a b : RemovalPolicy) : bool :=
  match a, b with
  | DESTROY, DESTROY | RETAIN, RETAIN | SNAPSHOT, SNAPSHOT => true
  | _, _ => false
  end.

(** The test [removalPolicy === RemovalPolicy.RETAIN]. *)
Definition is_RETAIN (removalPolicy : option RemovalPolicy) : bool :=
  match removalPolicy with
  | Some p => RemovalPolicy_eqb p RETAIN
  | None => false
  end.

(** [defaultDeletionProtection(deletionProtection?, removalPolicy?)]. *)
Definition defaultDeletionProtection
    (deletionProtection : option bool) (removalPolicy : option RemovalPolicy)
  : option bool :=
  match deletionProtection with
  | Some b => Some b
  | None => if is_RETAIN removalPolicy then Some true else None
  end.

(** The number of roles a run created below the scope. *)
Definition created (before after : Scope) : nat :=
  length (roles after) - length (roles before).

End Rds.

From Stdlib Require Import Permutation.

(** ** Cross-environment requests among the operations on a resource *)

Section Requests.

Context {core : Core}.

(** The test of both attribute producers: the consumer's stack has another
    [environment] string than the resource's. *)
Definition crosses (r : Resource.t) (context : IResolveContext.t) : bool :=
  negb (Stack.environment (Resource.stack r)
        =? Stack.environment (Stack_of (IResolveContext.scope context))).

(** The operations that reach [_enableCrossEnvironment]. *)
Definition requests (r : Resource.t) (op : Operation) : bool :=
  match op with
  | EnableCrossEnvironment => true
  | ResolveName _ context => crosses r context
  | ResolveArn _ _ context => crosses r context
  end.

End Requests.

(** ** aws-rds/lib/private/util.ts: the grants of [setupS3ImportExport] *)

(** The grants that the loop over [buckets] makes to [role], the newest
    first. *)
Definition grants_to (access : Rds.Access) (role : option Rds.IRole)
    (buckets : option (list Rds.IBucket))
  : list (Rds.IBucket * Rds.Access * Rds.IRole) :=
  match role with
  | Some r => rev (map (fun bucket => (bucket, access, r))
                     (JS.nullish buckets []))
  | None => []
  end.

(** The role of one direction after a run without [combineRoles]: a new
    role when there are buckets, the role of the props otherwise. *)
Definition separate_role (id : string) (supplied : option Rds.IRole)
    (buckets : option (list Rds.IBucket)) : option Rds.IRole :=
  if Rds.nonEmpty buckets then Some (Rds.Role id "rds.amazonaws.com")
  else supplied.

(** ** aws-rds/lib/private/util.ts: [engineDescription] *)

Module RdsEngine.

(** What [engineDescription] reads of an [IInstanceEngine]
    (instance-engine.ts is not part of the sources): [engineType], and
    [engineVersion?.fullVersion]. *)
Record EngineVersion : Type := mkVersion
  { fullVersion : option string }.

Record IInstanceEngine : Type := mkEngine
  { engineType : string;
    engineVersion : option EngineVersion }.

(** [engine.engineVersion?.fullVersion]. *)
Definition version_of (engine : IInstanceEngine) : option string :=
  match engineVersion engine with
  | Some v => fullVersion v
  | None => None
  end.

(** [engineDescription(engine)]. *)
Definition engineDescription (engine : IInstanceEngine) : string :=
  engineType engine
  ++ (if JS.truthy_opt (version_of engine)
      then "-" ++ JS.nullish (version_of engine) ""
      else "").

End RdsEngine.

(** ** cdk-assets: [ContainerImageAssetHandler] *)

Module Assets.

(** The event types the handler emits ([EventType] of progress.ts, which
    is not part of the sources). *)
Inductive EventType : Type :=
| DEBUG
| CHECK
| FOUND
| UPLOAD
| CACHED
| BUILD.

(** A thrown value, as the handler reads it: [e.code], and the message. *)
Record Exn : Type := mkExn
  { code : option string;
    message : string }.

(** [new Error(message)]. *)
Definition Error (msg : string) : Exn := mkExn None msg.

(** The test [e.code !== name]. *)
Definition code_differs (e : Exn) (name : string) : bool :=
  match code e with
  | Some c => negb (c =? name)
  | None => true
  end.

(** A settled promise. *)
Inductive Settled (A : Type) : Type :=
| Resolved (a : A)
| Rejected (e : Exn).
Arguments Resolved {A} a.
Arguments Rejected {A} e.

(** What the handler reads of a [DockerImageManifestEntry]
    (asset-manifest.ts is not part of the sources). *)
Record DockerImageSource : Type := mkSource
  { directory : string;
    dockerBuildArgs : option (list (string * string));
    dockerBuildTarget : option string;
    dockerFile : option string }.

Record DockerImageDestination : Type := mkDestination
  { repositoryName : string;
    imageTag : string }.

Record DockerImageManifestEntry : Type := mkEntry
  { assetId : string;
    source : DockerImageSource;
    destination : DockerImageDestination }.

(** An [AWS.ECR] client object. *)
Inductive ECR : Type :=
| ecr_client (handle : nat).

(** An entry of [response.repositories]. *)
Record Repository : Type := mkRepository
  { repositoryUri : option string }.

(** The argument of [docker.build]. *)
Record BuildOptions : Type := mkBuild
  { build_directory : string;
    build_tag : string;
    buildArgs : option (list (string * string));
    target : option string;
    file : option string }.

(** Everything the handler asks of its collaborators: the placeholder
    replacement, the AWS SDK, the host and the [Docker] wrapper, none of
    which is part of the sources.  A docker command is one step: the
    DEBUG lines the wrapper logs through its callback are its own. *)
Inductive Command : Type :=
| ReplaceAwsPlaceholders (d : DockerImageDestination)
| EcrClient (d : DockerImageDestination)
| DescribeRepositories (client : ECR) (repositoryNames : list string)
| DescribeImages (client : ECR) (repository : string)
    (imageTags : list string)
| EmitMessage (type : EventType) (m : string)
| Aborted
| DockerExists (tag : string)
| DockerBuild (options : BuildOptions)
| DockerTag (sourceTag targetTag : string)
| DockerLogin (client : ECR)
| DockerPush (tag : string).

(** What each of them answers: a promise that settles, except for
    [host.emitMessage] (no result; the host's listener is taken not to
    throw) and the property [host.aborted]. *)
Definition Response (c : Command) : Type :=
  match c with
  | ReplaceAwsPlaceholders _ => Settled DockerImageDestination
  | EcrClient _ => Settled ECR
  | DescribeRepositories _ _ => Settled (option (list Repository))
  | DescribeImages _ _ _ => Settled unit
  | EmitMessage _ _ => unit
  | Aborted => bool
  | DockerExists _ => Settled bool
  | DockerBuild _ => Settled unit
  | DockerTag _ _ => Settled unit
  | DockerLogin _ => Settled unit
  | DockerPush _ => Settled unit
  end.

(** An [async] function: it returns, throws, or awaits a collaborator and
    goes on with the answer. *)
Inductive Async (A : Type) : Type :=
| Return (a : A)
| Throw (e : Exn)
| Await (c : Command) (k : Response c -> Async A).
Arguments Return {A} a.
Arguments Throw {A} e.
Arguments Await {A} c k.

Fixpoint bind {A B : Type} (p : Async A) (k : A -> Async B) : Async B :=
  match p with
  | Return a => k a
  | Throw e => Throw e
  | Await c k' => Await c (fun r => bind (k' r) k)
  end.

(** [try { body } catch (e) { handler }]. *)
Fixpoint try_catch {A : Type} (body : Async A) (handler : Exn -> Async A)
  : Async A :=
  match body with
  | Return a => Return a
  | Throw e => handler e
  | Await c k => Await c (fun r => try_catch (k r) handler)
  end.

(** [await promise]: a rejection is thrown. *)
Definition settle {A : Type} (r : Settled A) : Async A :=
  match r with
  | Resolved a => Return a
  | Rejected e => Throw e
  end.

Declare Scope async_scope.
Delimit Scope async_scope with async.
Notation "x <- p ;; k" := (bind p (fun x => k))
  (at level 100, p at next level, right associativity) : async_scope.
Notation "p ;;; k" := (bind p (fun _ => k))
  (at level 100, right associativity) : async_scope.

Local Open Scope async_scope.

Definition replaceAwsPlaceholders (d : DockerImageDestination)
  : Async DockerImageDestination :=
  Await (ReplaceAwsPlaceholders d) settle.

Definition ecrClient (d : DockerImageDestination) : Async ECR :=
  Await (EcrClient d) settle.

Definition describeRepositories (client : ECR) (names : list string)
  : Async (option (list Repository)) :=
  Await (DescribeRepositories client names) settle.

Definition describeImages (client : ECR) (repository : string)
    (imageTags : list string) : Async unit :=
  Await (DescribeImages client repository imageTags) settle.

Definition emitMessage (type : EventType) (m : string) : Async unit :=
  Await (EmitMessage type m) Return.

Definition aborted : Async bool := Await Aborted Return.

Definition docker_exists (tag : string) : Async bool :=
  Await (DockerExists tag) settle.

Definition docker_build (options : BuildOptions) : Async unit :=
  Await (DockerBuild options) settle.

Definition docker_tag (sourceTag targetTag : string) : Async unit :=
  Await (DockerTag sourceTag targetTag) settle.

Definition docker_login (client : ECR) : Async unit :=
  Await (DockerLogin client) settle.

Definition docker_push (tag : string) : Async unit :=
  Await (DockerPush tag) settle.

(** The two library functions the handler calls on strings:
    [String.prototype.toLowerCase] and Node's [path.join]. *)
Class Runtime : Type :=
  { toLowerCase : string -> string;
    path_join : string -> string -> string }.

Section Handler.

Context {runtime : Runtime}.

Variables (workDir : string) (asset : DockerImageManifestEntry).

(** The field [localTagName], set by the constructor. *)
Definition localTagName : string :=
  "cdkasset-" ++ toLowerCase (assetId asset).

(** [imageExists(ecr, repositoryName, imageTag)]. *)
Definition imageExists (client : ECR) (repository tag : string)
  : Async bool :=
  try_catch
    (describeImages client repository [tag] ;;;
     Return true)
    (fun e =>
       if code_differs e "ImageNotFoundException" then Throw e
       else Return false).

(** [(response.repositories || [])[0]?.repositoryUri]. *)
Definition first_uri (repositories : option (list Repository))
  : option string :=
  match nth_error (JS.nullish repositories []) 0 with
  | Some repository => Assets.repositoryUri repository
  | None => None
  end.

(** The function [repositoryUri(ecr, repositoryName)]. *)
Definition repositoryUri_of (client : ECR) (repository : string)
  : Async (option string) :=
  try_catch
    (response <- describeRepositories client [repository] ;;
     Return (first_uri response))
    (fun e =>
       if code_differs e "RepositoryNotFoundException" then Throw e
       else Return None).

Definition noRepositoryError (repository : string) : Exn :=
  Error ("No ECR repository with name '" ++ repository
         ++ "' in account. Is this account bootstrapped?").

(** [buildImage()]. *)
Definition buildImage : Async unit :=
  cached <- docker_exists localTagName ;;
  if cached then
    emitMessage CACHED ("Cached " ++ localTagName) ;;;
    Return tt
  else
    let source := source asset in
    let fullPath := path_join workDir (directory source) in
    emitMessage BUILD ("Building Docker image at " ++ fullPath) ;;;
    docker_build
      (mkBuild fullPath localTagName (dockerBuildArgs source)
         (dockerBuildTarget source) (dockerFile source)).

(** [publish()]. *)
Definition publish : Async unit :=
  destination <- replaceAwsPlaceholders (destination asset) ;;
  ecr <- ecrClient destination ;;
  uri <- repositoryUri_of ecr (repositoryName destination) ;;
  if negb (JS.truthy_opt uri) then
    Throw (noRepositoryError (repositoryName destination))
  else
    let uri := JS.nullish uri "" in
    emitMessage CHECK ("Check " ++ uri) ;;;
    found <- imageExists ecr (repositoryName destination)
               (imageTag destination) ;;
    if found then
      emitMessage FOUND ("Found " ++ uri) ;;;
      Return tt
    else
      stop <- aborted ;;
      if stop then Return tt
      else
        buildImage ;;;
        emitMessage UPLOAD ("Push " ++ uri) ;;;
        stop <- aborted ;;
        if stop then Return tt
        else
          docker_tag localTagName uri ;;;
          docker_login ecr ;;;
          docker_push uri.

End Handler.

(** *** Runs against the collaborators *)

(** What a collaborator answered, without the type of the answer. *)
Inductive Answer : Type :=
| Nothing
| Flag (b : bool)
| Fulfilled
| FulfilledFlag (b : bool)
| FulfilledDestination (d : DockerImageDestination)
| FulfilledClient (client : ECR)
| FulfilledRepositories (repositories : option (list Repository))
| Failed (e : Exn).

Definition settled_answer {A : Type} (resolved : A -> Answer) (r : Settled A)
  : Answer :=
  match r with
  | Resolved a => resolved a
  | Rejected e => Failed e
  end.

Definition answer_of (c : Command) : Response c -> Answer :=
  match c as c0 return Response c0 -> Answer with
  | ReplaceAwsPlaceholders _ => settled_answer FulfilledDestination
  | EcrClient _ => settled_answer FulfilledClient
  | DescribeRepositories _ _ => settled_answer FulfilledRepositories
  | DescribeImages _ _ _ => settled_answer (fun _ => Fulfilled)
  | EmitMessage _ _ => fun _ => Nothing
  | Aborted => Flag
  | DockerExists _ => settled_answer FulfilledFlag
  | DockerBuild _ => settled_answer (fun _ => Fulfilled)
  | DockerTag _ _ => settled_answer (fun _ => Fulfilled)
  | DockerLogin _ => settled_answer (fun _ => Fulfilled)
  | DockerPush _ => settled_answer (fun _ => Fulfilled)
  end.

(** One step of a run: what was asked, and the answer. *)
Definition Event : Type := (Command * Answer)%type.

(** The collaborators: an answer to every command, which may depend on
    all that was asked before. *)
Definition World : Type := list Command -> forall c : Command, Response c.

(** The run of an [async] function in a world, after the commands [past]:
    the events in order, and how the promise settles. *)
Fixpoint run {A : Type} (world : World) (p : Async A) (past : list Command)
  : list Event * Settled A :=
  match p with
  | Return a => ([], Resolved a)
  | Throw e => ([], Rejected e)
  | Await c k =>
      let r := world past c in
      let rest := run world (k r) (past ++ [c]) in
      ((c, answer_of c r) :: fst rest, snd rest)
  end.

(** A property of every run of [p], by cases on each answer. *)
Fixpoint every_run {A : Type} (p : Async A)
    (P : list Event -> Settled A -> Prop) : Prop :=
  match p with
  | Return a => P [] (Resolved a)
  | Throw e => P [] (Rejected e)
  | Await c k =>
      forall r : Response c,
        every_run (k r) (fun t o => P ((c, answer_of c r) :: t) o)
  end.

(** The commands that run docker. *)
Definition is_docker (c : Command) : bool :=
  match c with
  | DockerExists _ | DockerBuild _ | DockerTag _ _ | DockerLogin _
  | DockerPush _ => true
  | _ => false
  end.

(** The commands that change something outside the handler: a build, a
    tag, a login or a push. *)
Definition is_effect (c : Command) : bool :=
  match c with
  | DockerBuild _ | DockerTag _ _ | DockerLogin _ | DockerPush _ => true
  | _ => false
  end.

Definition is_message (c : Command) : bool :=
  match c with
  | EmitMessage _ _ => true
  | _ => false
  end.

(** The rejections the handler catches: the two not-found codes of ECR. *)
Definition caught (ev : Event) : bool :=
  match ev with
  | (DescribeRepositories _ _, Failed e) =>
      negb (code_differs e "RepositoryNotFoundException")
  | (DescribeImages _ _ _, Failed e) =>
      negb (code_differs e "ImageNotFoundException")
  | _ => false
  end.

Definition commands (t : list Event) : list Command := map fst t.

(** The events of a run from the start, and how it settles. *)
Definition trace {A : Type} (world : World) (p : Async A) : list Event :=
  fst (run world p []).

Definition settles {A : Type} (world : World) (p : Async A) : Settled A :=
  snd (run world p []).

(** The last [n] events of a run. *)
Definition last_events (n : nat) (t : list Event) : list Event :=
  rev (firstn n (rev t)).

(** The types of the messages of a run, in order. *)
Definition message_type (ev : Event) : option EventType :=
  match fst ev with
  | EmitMessage type _ => Some type
  | _ => None
  end.

Fixpoint messages (t : list Event) : list EventType :=
  match t with
  | [] => []
  | ev :: t' =>
      match message_type ev with
      | Some type => type :: messages t'
      | None => messages t'
      end
  end.

(** The commands that publish the local image: tag, login and push. *)
Definition is_upload (c : Command) : bool :=
  match c with
  | DockerTag _ _ | DockerLogin _ | DockerPush _ => true
  | _ => false
  end.

(** An answer of [describeRepositories] that yields no repository URI. *)
Definition no_uri (a : Answer) : bool :=
  match a with
  | FulfilledRepositories repositories =>
      negb (JS.truthy_opt (first_uri repositories))
  | Failed e => negb (code_differs e "RepositoryNotFoundException")
  | _ => false
  end.

(** *** A concrete world, to run the handler *)

(** What the collaborators answer in a sample world: the two ECR calls,
    the property [host.aborted] before and after docker was first asked,
    and the docker commands. *)
Record Script : Type := mkScript
  { repositories : Settled (option (list Repository));
    images : Settled unit;
    aborted_early : bool;
    aborted_late : bool;
    exists_locally : Settled bool;
    build : Settled unit;
    tag : Settled unit;
    login : Settled unit;
    push : Settled unit }.

Definition scripted (s : Script) : World :=
  fun past c =>
    match c as c0 return Response c0 with
    | ReplaceAwsPlaceholders d => Resolved d
    | EcrClient _ => Resolved (ecr_client 0)
    | DescribeRepositories _ _ => repositories s
    | DescribeImages _ _ _ => images s
    | EmitMessage _ _ => tt
    | Aborted => if existsb is_docker past then aborted_late s
                 else aborted_early s
    | DockerExists _ => exists_locally s
    | DockerBuild _ => build s
    | DockerTag _ _ => tag s
    | DockerLogin _ => login s
    | DockerPush _ => push s
    end.

Definition lower_ascii (c : Ascii.ascii) : Ascii.ascii :=
  let n := Ascii.nat_of_ascii c in
  if ((65 <=? n)%nat && (n <=? 90)%nat)%bool
  then Ascii.ascii_of_nat (n + 32) else c.

Fixpoint lower (s : string) : string :=
  match s with
  | EmptyString => EmptyString
  | String c s' => String (lower_ascii c) (lower s')
  end.

(** A runtime for strings of ASCII characters and relative paths without
    dots. *)
Definition sample_runtime : Runtime :=
  {| toLowerCase := lower;
     path_join := fun a b => a ++ "/" ++ b |}.

Definition sample_asset : DockerImageManifestEntry :=
  mkEntry "AB12cd"
    (mkSource "app" None None (Some "Dockerfile"))
    (mkDestination "cdk-assets" "ab12cd").

Definition sample_uri : string :=
  "111111111111.dkr.ecr.us-east-1.amazonaws.com/cdk-assets".

Definition not_found (name : string) : Exn := mkExn (Some name) "not found".

(** The repository is there and the image is not; nothing fails. *)
Definition fresh_image : Script :=
  mkScript (Resolved (Some [mkRepository (Some sample_uri)]))
    (Rejected (not_found "ImageNotFoundException"))
    false false (Resolved false)
    (Resolved tt) (Resolved tt) (Resolved tt) (Resolved tt).

(** The image is already in the repository. *)
Definition published : Script :=
  mkScript (Resolved (Some [mkRepository (Some sample_uri)]))
    (Resolved tt)
    false false (Resolved false)
    (Resolved tt) (Resolved tt) (Resolved tt) (Resolved tt).

(** The account has no such repository. *)
Definition no_repository : Script :=
  mkScript (Rejected (not_found "RepositoryNotFoundException"))
    (Resolved tt)
    false false (Resolved false)
    (Resolved tt) (Resolved tt) (Resolved tt) (Resolved tt).

(** The build of the image fails. *)
Definition build_fails : Script :=
  mkScript (Resolved (Some [mkRepository (Some sample_uri)]))
    (Rejected (not_found "ImageNotFoundException"))
    false false (Resolved false)
    (Rejected (Error "build failed")) (Resolved tt) (Resolved tt)
    (Resolved tt).

(** The host aborts while the image is built. *)
Definition aborted_during_build : Script :=
  mkScript (Resolved (Some [mkRepository (Some sample_uri)]))
    (Rejected (not_found "ImageNotFoundException"))
    false true (Resolved false)
    (Resolved tt) (Resolved tt) (Resolved tt) (Resolved tt).

Definition sample_publish (s : Script) : list Event * Settled unit :=
  run (scripted s) (publish (runtime := sample_runtime) "/work" sample_asset)
    [].

Definition sample_trace (s : Script) : list Event :=
  trace (scripted s) (publish (runtime := sample_runtime) "/work" sample_asset).

Definition sample_outcome (s : Script) : Settled unit :=
  settles (scripted s)
    (publish (runtime := sample_runtime) "/work" sample_asset).

End Assets.

(** ** The model on concrete inputs *)

Example unnamed_bucket :
  Sample.bucket None
  = Resource.mk "App/StackA/MyBucket" Sample.stackA
      (ResourceEnvironment.mk "111111111111" "us-east-1")
      UndefinedToken None false.
Proof. reflexivity. Qed.

Example named_bucket_from_other_stack :
  IResolvable.resolve (getResourceNameAttribute (core := Sample.core) "Ref")
    Sample.fromB (Sample.bucket (Some "my-bucket"))
  = (Returns (Str "my-bucket"), Sample.bucket (Some "my-bucket")).
Proof. reflexivity. Qed.

Example marker_bucket_from_other_stack :
  IResolvable.resolve (getResourceNameAttribute (core := Sample.core) "Ref")
    Sample.fromB (Sample.bucket (Some Sample.GENERATE_IF_NEEDED))
  = (Returns LazyPhysicalName,
     Resource.set__physicalName (Some "generated:App/StackA/MyBucket")
       (Sample.bucket (Some Sample.GENERATE_IF_NEEDED))).
Proof. reflexivity. Qed.

Example token_named_bucket_is_unset :
  state_of (Sample.bucket (Some "bucket-${Token[TOKEN.7]}")) = Unset.
Proof. reflexivity. Qed.

Example arn_from_other_stack :
  outcome
    (IResolvable.resolve
       (getResourceArnAttribute (core := Sample.core) "Arn"
          (Sample.mkArn "s3" "bucket" "my-bucket"))
       Sample.fromB (Sample.bucket (Some "my-bucket")))
  = Returns (Str "arn:aws:s3:us-east-1:111111111111:bucket/my-bucket").
Proof. reflexivity. Qed.

(** ** How the methods of [Resource] run *)

Lemma truthy_nonempty (s : string) : JS.truthy s = true <-> s <> "".
Proof.
  unfold JS.truthy. rewrite negb_true_iff. apply String.eqb_neq.
Qed.

Lemma truthy_empty : JS.truthy "" = false.
Proof. reflexivity. Qed.

Section ResourceFacts.

Context {core : Core}.

Lemma named_fields (r : Resource.t) :
  exists v, named r = Resource.set__physicalName v r.
Proof.
  unfold named. destruct (JS.truthy_opt (Resource._physicalName r)).
  - exists (Resource._physicalName r). now destruct r.
  - now eexists.
Qed.

Lemma named_truthy (r : Resource.t) :
  JS.truthy_opt (Resource._physicalName r) = true -> named r = r.
Proof. unfold named. now intros ->. Qed.

Lemma enable_denied (r : Resource.t) :
  Resource._allowCrossEnvironment r = false ->
  _enableCrossEnvironment r
  = (Throws (crossEnvironmentError (Resource.node_path r)), r).
Proof.
  intros H. unfold _enableCrossEnvironment, bind, get. now rewrite H.
Qed.

Lemma enable_allowed (r : Resource.t) :
  Resource._allowCrossEnvironment r = true ->
  _enableCrossEnvironment r = (Returns tt, named r).
Proof.
  intros H. unfold _enableCrossEnvironment, named, bind, get. rewrite H.
  cbn. now destruct (JS.truthy_opt (Resource._physicalName r)).
Qed.

(** Both exits of [_enableCrossEnvironment] in one equation. *)
Lemma enable_run (r : Resource.t) :
  _enableCrossEnvironment r
  = if Resource._allowCrossEnvironment r then (Returns tt, named r)
    else (Throws (crossEnvironmentError (Resource.node_path r)), r).
Proof.
  destruct (Resource._allowCrossEnvironment r) eqn:H.
  - now apply enable_allowed.
  - now apply enable_denied.
Qed.

Lemma named_physicalName (r : Resource.t) :
  Resource.physicalName (named r) = Resource.physicalName r.
Proof. destruct (named_fields r) as [v ->]. reflexivity. Qed.

Lemma named_stack (r : Resource.t) :
  Resource.stack (named r) = Resource.stack r.
Proof. destruct (named_fields r) as [v ->]. reflexivity. Qed.

Lemma resolve_name_run (nameAttr : string) (context : IResolveContext.t)
    (r : Resource.t) :
  IResolvable.resolve (getResourceNameAttribute nameAttr) context r
  = if Stack.environment (Resource.stack r)
       =? Stack.environment (Stack_of (IResolveContext.scope context))
    then (Returns (Str nameAttr), r)
    else if Resource._allowCrossEnvironment r
         then (Returns (Resource.physicalName r), named r)
         else (Throws (crossEnvironmentError (Resource.node_path r)), r).
Proof.
  unfold getResourceNameAttribute, Lazy.stringValue.
  cbn [IResolvable.resolve].
  unfold bind at 1. cbn [get].
  destruct (_ =? _); [reflexivity|]. cbn [negb].
  unfold bind. rewrite enable_run.
  destruct (Resource._allowCrossEnvironment r); [|reflexivity].
  cbn. now rewrite named_physicalName.
Qed.

Lemma resolve_arn_run (arnAttr : string) (arnComponents : ArnComponents)
    (context : IResolveContext.t) (r : Resource.t) :
  IResolvable.resolve (getResourceArnAttribute arnAttr arnComponents) context r
  = if Stack.environment (Resource.stack r)
       =? Stack.environment (Stack_of (IResolveContext.scope context))
    then (Returns (Str arnAttr), r)
    else if Resource._allowCrossEnvironment r
         then (Returns (Str (Stack_formatArn (Resource.stack r) arnComponents)),
               named r)
         else (Throws (crossEnvironmentError (Resource.node_path r)), r).
Proof.
  unfold getResourceArnAttribute, Token_asString.
  cbn [IResolvable.resolve].
  unfold bind at 1. cbn [get].
  destruct (_ =? _); [reflexivity|]. cbn [negb].
  unfold bind. rewrite enable_run.
  destruct (Resource._allowCrossEnvironment r); [|reflexivity].
  cbn. now rewrite named_stack.
Qed.

(** An operation leaves the resource as it was, or names it. *)
Lemma perform_cases (op : Operation) (r : Resource.t) :
  perform op r = r \/ perform op r = named r.
Proof.
  destruct op; unfold perform, final.
  - rewrite enable_run. destruct (Resource._allowCrossEnvironment r); auto.
  - rewrite resolve_name_run.
    destruct (_ =? _); [auto|].
    destruct (Resource._allowCrossEnvironment r); auto.
  - rewrite resolve_arn_run.
    destruct (_ =? _); [auto|].
    destruct (Resource._allowCrossEnvironment r); auto.
Qed.

Lemma same_readonly_refl (r : Resource.t) : same_readonly r r.
Proof. now repeat split. Qed.

Lemma same_readonly_trans (a b c : Resource.t) :
  same_readonly a b -> same_readonly b c -> same_readonly a c.
Proof.
  unfold same_readonly. intros (?&?&?&?&?) (?&?&?&?&?).
  repeat split; congruence.
Qed.

Lemma same_readonly_named (r : Resource.t) : same_readonly r (named r).
Proof. destruct (named_fields r) as [v ->]. now repeat split. Qed.

Lemma perform_readonly (op : Operation) (r : Resource.t) :
  same_readonly r (perform op r).
Proof.
  destruct (perform_cases op r) as [-> | ->].
  - apply same_readonly_refl.
  - apply same_readonly_named.
Qed.

Lemma perform_all_readonly (ops : list Operation) (r : Resource.t) :
  same_readonly r (perform_all ops r).
Proof.
  revert r. induction ops as [|op ops IH]; intros r; cbn.
  - apply same_readonly_refl.
  - eapply same_readonly_trans; [apply perform_readonly | apply IH].
Qed.

(** Once the private name is truthy no operation changes the resource. *)
Lemma perform_all_settled (ops : list Operation) (r : Resource.t) :
  JS.truthy_opt (Resource._physicalName r) = true ->
  perform_all ops r = r.
Proof.
  intros H. induction ops as [|op ops IH]; cbn; [reflexivity|].
  destruct (perform_cases op r) as [-> | ->]; [exact IH|].
  now rewrite (named_truthy r H).
Qed.

(** Naming settles the resource when the generator returns a name. *)
Lemma named_settled (r : Resource.t) :
  generatePhysicalName r <> "" ->
  JS.truthy_opt (Resource._physicalName (named r)) = true.
Proof.
  intros G. unfold named.
  destruct (JS.truthy_opt (Resource._physicalName r)) eqn:H; [exact H|].
  cbn. now apply truthy_nonempty.
Qed.

(** The private name changes at most once along any run: from the first
    operation that names the resource on, the state is [named r]. *)
Lemma perform_all_cases (ops : list Operation) (r : Resource.t) :
  generatePhysicalName r <> "" ->
  perform_all ops r = r \/ perform_all ops r = named r.
Proof.
  intros G. induction ops as [|op ops IH]; cbn; [now left|].
  destruct (perform_cases op r) as [-> | ->]; [exact IH|].
  right. apply perform_all_settled. now apply named_settled.
Qed.

End ResourceFacts.

(** ** The constructor *)

Section ConstructorFacts.

Context {core : Core}.

Variables (scope : IConstruct.t) (id : string).

Lemma constructor_marker (props : ResourceProps.t) (marker : string) :
  ResourceProps.physicalName props = Some marker ->
  marker <> "" ->
  isGeneratedWhenNeededMarker marker = true ->
  Resource_constructor scope id props
  = Resource.mk (child_path scope id) (Stack_of scope)
      (Resource.env (Resource_constructor scope id props))
      LazyPhysicalName None true.
Proof.
  intros E N M. apply truthy_nonempty in N.
  unfold Resource_constructor. rewrite E. cbn. now rewrite N, M.
Qed.

Lemma constructor_explicit (props : ResourceProps.t) (name : string) :
  ResourceProps.physicalName props = Some name ->
  name <> "" ->
  isGeneratedWhenNeededMarker name = false ->
  Token_isUnresolved name = false ->
  Resource_constructor scope id props
  = Resource.mk (child_path scope id) (Stack_of scope)
      (Resource.env (Resource_constructor scope id props))
      (Str name) (Some name) true.
Proof.
  intros E N M U. apply truthy_nonempty in N.
  unfold Resource_constructor. rewrite E. cbn. now rewrite N, M, U.
Qed.

Lemma constructor_absent (props : ResourceProps.t) :
  ResourceProps.physicalName props = None ->
  Resource_constructor scope id props
  = Resource.mk (child_path scope id) (Stack_of scope)
      (Resource.env (Resource_constructor scope id props))
      UndefinedToken None false.
Proof. intros E. unfold Resource_constructor. now rewrite E. Qed.

Lemma constructor_empty (props : ResourceProps.t) :
  ResourceProps.physicalName props = Some "" ->
  Resource_constructor scope id props
  = Resource.mk (child_path scope id) (Stack_of scope)
      (Resource.env (Resource_constructor scope id props))
      (Str "") (Some "") false.
Proof. intros E. unfold Resource_constructor. now rewrite E. Qed.

Lemma constructor_tokens (props : ResourceProps.t) (name : string) :
  ResourceProps.physicalName props = Some name ->
  isGeneratedWhenNeededMarker name = false ->
  Token_isUnresolved name = true ->
  Resource_constructor scope id props
  = Resource.mk (child_path scope id) (Stack_of scope)
      (Resource.env (Resource_constructor scope id props))
      (Str name) (Some name) false.
Proof.
  intros E M U. unfold Resource_constructor. rewrite E. cbn.
  rewrite M, U. now rewrite !andb_false_r.
Qed.

End ConstructorFacts.

(** ** The lifecycle properties of [Resource] *)

(** C1 (amended).  Resolving the name or ARN attribute token of a resource
    at a context returns the native attribute ([nameAttr], [arnAttr])
    exactly when the [environment] string of the resource's stack and that
    of the consuming stack are equal as strings; the resource's own [env]
    is not read and no token-aware comparison is made.  Otherwise the
    resolution calls [_enableCrossEnvironment]: when the resource allows
    it, the result is [this.physicalName], respectively
    [this.stack.formatArn(arnComponents)], and the resource is named; when
    it does not, the resolution throws and the resource is unchanged. *)
Theorem attribute_resolution_decision
    (core : Core) (r : Resource.t) (context : IResolveContext.t)
    (nameAttr arnAttr : string) (arnComponents : ArnComponents) :
  IResolvable.resolve (getResourceNameAttribute nameAttr) context r
  = (if Stack.environment (Resource.stack r)
        =? Stack.environment (Stack_of (IResolveContext.scope context))
     then (Returns (Str nameAttr), r)
     else if Resource._allowCrossEnvironment r
          then (Returns (Resource.physicalName r), named r)
          else (Throws (crossEnvironmentError (Resource.node_path r)), r))
  /\ IResolvable.resolve (getResourceArnAttribute arnAttr arnComponents) context r
     = (if Stack.environment (Resource.stack r)
           =? Stack.environment (Stack_of (IResolveContext.scope context))
        then (Returns (Str arnAttr), r)
        else if Resource._allowCrossEnvironment r
             then (Returns
                     (Str (Stack_formatArn (Resource.stack r) arnComponents)),
                   named r)
             else (Throws (crossEnvironmentError (Resource.node_path r)), r)).
Proof.
  split.
  - apply resolve_name_run.
  - apply resolve_arn_run.
Qed.

(** C1, as specified, fails: a resource of stack A whose props give it the
    account of another stack is referenced from stack A.  Its environment
    differs from the consumer's (two different token-free account ids),
    yet the name attribute resolves to [nameAttr]. *)
Lemma decision_ignores_resource_env :
  ~ name_decision_as_specified (core := Sample.core)
      Sample.foreign Sample.fromA "Ref".
Proof.
  unfold name_decision_as_specified. intros [H _].
  specialize (H eq_refl). vm_compute in H. discriminate H.
Qed.

(** C2 (amended).  A non-empty name that the marker test accepts gives
    state Deferred-if-needed with the allowance; a non-empty name without
    tokens (and not the marker) gives state Explicit with the allowance; no
    name, the empty string, or a name with unresolved tokens that is not
    the marker gives state Unset without the allowance. *)
Theorem constructor_states
    (core : Core) (scope : IConstruct.t) (id : string)
    (props : ResourceProps.t) :
  (forall marker,
      ResourceProps.physicalName props = Some marker ->
      marker <> "" ->
      isGeneratedWhenNeededMarker marker = true ->
      state_of (Resource_constructor scope id props) = DeferredIfNeeded
      /\ Resource._allowCrossEnvironment (Resource_constructor scope id props)
         = true)
  /\ (forall name,
         ResourceProps.physicalName props = Some name ->
         name <> "" ->
         isGeneratedWhenNeededMarker name = false ->
         Token_isUnresolved name = false ->
         state_of (Resource_constructor scope id props) = Explicit
         /\ Resource._allowCrossEnvironment
              (Resource_constructor scope id props) = true
         /\ Resource._physicalName (Resource_constructor scope id props)
            = Some name)
  /\ (ResourceProps.physicalName props = None
      \/ ResourceProps.physicalName props = Some ""
      \/ (exists name,
             ResourceProps.physicalName props = Some name
             /\ isGeneratedWhenNeededMarker name = false
             /\ Token_isUnresolved name = true) ->
      state_of (Resource_constructor scope id props) = Unset
      /\ Resource._allowCrossEnvironment (Resource_constructor scope id props)
         = false).
Proof.
  split; [|split].
  - intros marker E N M. now rewrite (constructor_marker _ _ _ _ E N M).
  - intros name E N M U. rewrite (constructor_explicit _ _ _ _ E N M U).
    unfold state_of. cbn. apply truthy_nonempty in N. now rewrite N.
  - intros [E | [E | (name & E & M & U)]].
    + now rewrite (constructor_absent _ _ _ E).
    + now rewrite (constructor_empty _ _ _ E).
    + now rewrite (constructor_tokens _ _ _ _ E M U).
Qed.

(** The three cases of C2 on the sample bucket. *)
Lemma constructor_states_witness :
  state_of (Sample.bucket (Some Sample.GENERATE_IF_NEEDED)) = DeferredIfNeeded
  /\ state_of (Sample.bucket (Some "my-bucket")) = Explicit
  /\ state_of (Sample.bucket (Some "bucket-${Token[TOKEN.7]}")) = Unset.
Proof.
  split; [|split].
  - refine (proj1 (proj1 (constructor_states Sample.core Sample.scopeA
      "MyBucket" (Sample.props_of (Some Sample.GENERATE_IF_NEEDED)))
      Sample.GENERATE_IF_NEEDED eq_refl _ eq_refl)).
    discriminate.
  - refine (proj1 (proj1 (proj2 (constructor_states Sample.core Sample.scopeA
      "MyBucket" (Sample.props_of (Some "my-bucket"))))
      "my-bucket" eq_refl _ eq_refl eq_refl)).
    discriminate.
  - refine (proj1 (proj2 (proj2 (constructor_states Sample.core Sample.scopeA
      "MyBucket" (Sample.props_of (Some "bucket-${Token[TOKEN.7]}")))) _)).
    right. right. exists "bucket-${Token[TOKEN.7]}". now repeat split.
Defined.

(** C2, as specified, fails on the empty string: it is a name without
    tokens, and the constructor leaves the resource Unset. *)
Lemma empty_name_is_not_explicit :
  ~ explicit_name_as_specified (core := Sample.core)
      Sample.scopeA "MyBucket" (Sample.props_of (Some "")).
Proof.
  intros H. destruct (H "" eq_refl eq_refl eq_refl) as [_ A].
  vm_compute in A. discriminate A.
Qed.

(** C3 (amended).  On a resource without the allowance (state Unset),
    [_enableCrossEnvironment] and the resolution of the name or the ARN
    attribute from a scope whose stack has another [environment] string
    than the resource's stack throw the error that quotes the construct
    path and asks for an explicit name or
    [PhysicalName.GENERATE_IF_NEEDED], and leave the resource as it was.
    From a scope whose stack has the same [environment] string the
    attributes resolve to the native references without error, whatever
    the [env] of the resource. *)
Theorem cross_environment_denied (core : Core) (r : Resource.t) :
  Resource._allowCrossEnvironment r = false ->
  state_of r = Unset
  /\ _enableCrossEnvironment r
     = (Throws (crossEnvironmentError (Resource.node_path r)), r)
  /\ (forall nameAttr context,
         Stack.environment (Resource.stack r)
         <> Stack.environment (Stack_of (IResolveContext.scope context)) ->
         IResolvable.resolve (getResourceNameAttribute nameAttr) context r
         = (Throws (crossEnvironmentError (Resource.node_path r)), r))
  /\ (forall arnAttr arnComponents context,
         Stack.environment (Resource.stack r)
         <> Stack.environment (Stack_of (IResolveContext.scope context)) ->
         IResolvable.resolve (getResourceArnAttribute arnAttr arnComponents)
           context r
         = (Throws (crossEnvironmentError (Resource.node_path r)), r))
  /\ (forall nameAttr context,
         Stack.environment (Resource.stack r)
         = Stack.environment (Stack_of (IResolveContext.scope context)) ->
         IResolvable.resolve (getResourceNameAttribute nameAttr) context r
         = (Returns (Str nameAttr), r))
  /\ (forall arnAttr arnComponents context,
         Stack.environment (Resource.stack r)
         = Stack.environment (Stack_of (IResolveContext.scope context)) ->
         IResolvable.resolve (getResourceArnAttribute arnAttr arnComponents)
           context r
         = (Returns (Str arnAttr), r))
  /\ crossEnvironmentError (Resource.node_path r)
     = "Cannot use resource '" ++ Resource.node_path r
       ++ "' in a cross-environment fashion, the resource's physical name must be explicit set or use `PhysicalName.GENERATE_IF_NEEDED`".
Proof.
  intros A. split; [|split; [|split; [|split; [|split; [|split]]]]].
  - unfold state_of. now rewrite A.
  - now apply enable_denied.
  - intros nameAttr context D. rewrite resolve_name_run.
    apply String.eqb_neq in D. now rewrite D, A.
  - intros arnAttr arnComponents context D. rewrite resolve_arn_run.
    apply String.eqb_neq in D. now rewrite D, A.
  - intros nameAttr context S. rewrite resolve_name_run.
    now rewrite S, String.eqb_refl.
  - intros arnAttr arnComponents context S. rewrite resolve_arn_run.
    now rewrite S, String.eqb_refl.
  - reflexivity.
Qed.

(** C3 on the sample bucket constructed without a name, referenced from
    stack B. *)
Lemma cross_environment_denied_witness :
  IResolvable.resolve (getResourceNameAttribute (core := Sample.core) "Ref")
    Sample.fromB (Sample.bucket None)
  = (Throws "Cannot use resource 'App/StackA/MyBucket' in a cross-environment fashion, the resource's physical name must be explicit set or use `PhysicalName.GENERATE_IF_NEEDED`",
     Sample.bucket None).
Proof.
  refine (proj1 (proj2 (proj2
    (cross_environment_denied Sample.core (Sample.bucket None) eq_refl)))
    "Ref" Sample.fromB _).
  discriminate.
Defined.

(** C3, as specified, fails: a resource of stack A without a name, whose
    props give it the account of another stack, is referenced from stack
    A.  The scope's environment differs from the resource's (two different
    token-free account ids), yet the name attribute resolves to
    [nameAttr] and nothing is thrown. *)
Lemma unset_resource_read_from_own_stack :
  ~ denial_as_specified (core := Sample.core)
      unnamed_foreign Sample.fromA "Ref".
Proof.
  intros H. specialize (H eq_refl eq_refl).
  vm_compute in H. discriminate H.
Qed.

(** C4.  A resource constructed with the generate-if-needed marker starts
    Deferred-if-needed.  Its first cross-environment request, direct or
    through the resolution of its name or ARN attribute from another
    environment, stores the name [generatePhysicalName(this)] computed on
    the resource as constructed and makes the state Generated.  From then on every
    [_enableCrossEnvironment()] returns without touching the resource, every
    sequence of operations leaves it as it is, and a later reference
    resolves to the same stored name. *)
Theorem generate_if_needed_once
    (core : Core) (scope : IConstruct.t) (id : string)
    (props : ResourceProps.t) (marker : string) (r0 r1 : Resource.t) :
  ResourceProps.physicalName props = Some marker ->
  marker <> "" ->
  isGeneratedWhenNeededMarker marker = true ->
  r0 = Resource_constructor scope id props ->
  generatePhysicalName r0 <> "" ->
  r1 = Resource.set__physicalName (Some (generatePhysicalName r0)) r0 ->
  state_of r0 = DeferredIfNeeded
  /\ _enableCrossEnvironment r0 = (Returns tt, r1)
  /\ state_of r1 = Generated
  /\ _enableCrossEnvironment r1 = (Returns tt, r1)
  /\ (forall ops, perform_all ops r1 = r1)
  /\ (forall ops, perform_all ops r0 = r0 \/ perform_all ops r0 = r1)
  /\ (forall nameAttr context,
         Stack.environment (Stack_of scope)
         <> Stack.environment (Stack_of (IResolveContext.scope context)) ->
         IResolvable.resolve (getResourceNameAttribute nameAttr) context r0
         = (Returns LazyPhysicalName, r1)
         /\ IResolvable.resolve (getResourceNameAttribute nameAttr) context r1
            = (Returns LazyPhysicalName, r1)
         /\ resolveStr LazyPhysicalName r1
            = (Returns (Some (generatePhysicalName r0)), r1)
         /\ (forall arnAttr arnComponents,
                IResolvable.resolve
                  (getResourceArnAttribute arnAttr arnComponents) context r0
                = (Returns (Str (Stack_formatArn (Stack_of scope) arnComponents)),
                   r1))).
Proof.
  intros E N M R0 G R1.
  assert (C : r0 = Resource.mk (child_path scope id) (Stack_of scope)
                     (Resource.env r0) LazyPhysicalName None true).
  { rewrite R0 at 1. rewrite (constructor_marker _ _ _ _ E N M).
    now rewrite <- R0. }
  assert (N0 : named r0 = r1).
  { rewrite R1. unfold named. rewrite C at 1. reflexivity. }
  assert (A0 : Resource._allowCrossEnvironment r0 = true) by now rewrite C.
  assert (A1 : Resource._allowCrossEnvironment r1 = true) by now rewrite R1.
  assert (T1 : JS.truthy_opt (Resource._physicalName r1) = true).
  { rewrite <- N0. now apply named_settled. }
  assert (N1 : named r1 = r1) by now apply named_truthy.
  assert (P1 : Resource.physicalName r1 = LazyPhysicalName).
  { rewrite R1. cbn. now rewrite C. }
  split; [now rewrite C|].
  split; [rewrite enable_allowed by exact A0; now rewrite N0|].
  split; [unfold state_of; now rewrite A1, T1, P1|].
  split; [rewrite enable_allowed by exact A1; now rewrite N1|].
  split; [intros ops; now apply perform_all_settled|].
  split; [intros ops; rewrite <- N0; now apply perform_all_cases|].
  intros nameAttr context D. apply String.eqb_neq in D.
  assert (S0 : Resource.stack r0 = Stack_of scope) by now rewrite C.
  assert (S1 : Resource.stack r1 = Stack_of scope) by now rewrite R1.
  split; [|split; [|split]].
  - rewrite resolve_name_run, S0, D, A0, N0. now rewrite C.
  - now rewrite resolve_name_run, S1, D, A1, N1, P1.
  - now rewrite R1.
  - intros arnAttr arnComponents.
    now rewrite resolve_arn_run, S0, D, A0, N0.
Qed.

(** C4 on the sample bucket constructed with the marker. *)
Lemma generate_if_needed_once_witness :
  _enableCrossEnvironment (core := Sample.core)
    (Sample.bucket (Some Sample.GENERATE_IF_NEEDED))
  = (Returns tt,
     Resource.set__physicalName (Some "generated:App/StackA/MyBucket")
       (Sample.bucket (Some Sample.GENERATE_IF_NEEDED))).
Proof.
  refine (proj1 (proj2
    (generate_if_needed_once Sample.core Sample.scopeA "MyBucket"
       (Sample.props_of (Some Sample.GENERATE_IF_NEEDED))
       Sample.GENERATE_IF_NEEDED _ _ eq_refl _ eq_refl eq_refl _ eq_refl))).
  - discriminate.
  - discriminate.
Defined.

(** C5 (amended).  The producer of the name attribute is run at every
    resolution, with the context of that resolution.  A consumer whose
    stack has the [environment] string of the resource's stack gets
    [nameAttr] and leaves the resource as it is, also after a consumer of
    another environment was served.  A consumer whose stack has another
    [environment] string gets the cross-environment error when the
    resource lacks the allowance; when it has it, the consumer gets
    [this.physicalName], and the resource keeps a truthy [_physicalName]
    or else stores [generatePhysicalName(this)]: a given string is handed
    on, and the lazy token resolves in turn to the stored name. *)
Theorem name_attribute_not_memoized
    (core : Core) (r : Resource.t) (nameAttr : string)
    (here there : IResolveContext.t) :
  Stack.environment (Resource.stack r)
  = Stack.environment (Stack_of (IResolveContext.scope here)) ->
  Stack.environment (Resource.stack r)
  <> Stack.environment (Stack_of (IResolveContext.scope there)) ->
  IResolvable.resolve (getResourceNameAttribute nameAttr) here r
  = (Returns (Str nameAttr), r)
  /\ (Resource._allowCrossEnvironment r = false ->
      IResolvable.resolve (getResourceNameAttribute nameAttr) there r
      = (Throws (crossEnvironmentError (Resource.node_path r)), r))
  /\ (Resource._allowCrossEnvironment r = true ->
      exists r',
        IResolvable.resolve (getResourceNameAttribute nameAttr) there r
        = (Returns (Resource.physicalName r), r')
        /\ same_readonly r r'
        /\ Resource._physicalName r'
           = (if JS.truthy_opt (Resource._physicalName r)
              then Resource._physicalName r
              else Some (generatePhysicalName r))
        /\ IResolvable.resolve (getResourceNameAttribute nameAttr) here r'
           = (Returns (Str nameAttr), r')
        /\ (forall s,
               Resource.physicalName r = Str s ->
               bind (IResolvable.resolve (getResourceNameAttribute nameAttr)
                       there)
                 resolveStr r
               = (Returns (Some s), r'))
        /\ (Resource.physicalName r = LazyPhysicalName ->
            bind (IResolvable.resolve (getResourceNameAttribute nameAttr)
                    there)
              resolveStr r
            = (Returns
                 (if JS.truthy_opt (Resource._physicalName r)
                  then Resource._physicalName r
                  else Some (generatePhysicalName r)),
               r'))).
Proof.
  intros S D. apply String.eqb_neq in D.
  split; [|split].
  - rewrite resolve_name_run. now rewrite <- S, String.eqb_refl.
  - intros A. rewrite resolve_name_run. now rewrite D, A.
  - intros A. exists (named r).
    assert (N : Resource._physicalName (named r)
                = if JS.truthy_opt (Resource._physicalName r)
                  then Resource._physicalName r
                  else Some (generatePhysicalName r)).
    { unfold named.
      now destruct (JS.truthy_opt (Resource._physicalName r)). }
    split; [rewrite resolve_name_run; now rewrite D, A|].
    split; [apply same_readonly_named|].
    split; [exact N|].
    split.
    { rewrite resolve_name_run, named_stack.
      now rewrite <- S, String.eqb_refl. }
    split.
    + intros s P. unfold bind. rewrite resolve_name_run, D, A, P.
      reflexivity.
    + intros P. unfold bind. rewrite resolve_name_run, D, A, P. cbn.
      now rewrite N.
Qed.

(** C5 on the sample bucket named [my-bucket], read from stack A, and on
    the marker bucket, read from stack B. *)
Lemma name_attribute_not_memoized_witness :
  IResolvable.resolve (getResourceNameAttribute (core := Sample.core) "Ref")
    Sample.fromA (Sample.bucket (Some "my-bucket"))
  = (Returns (Str "Ref"), Sample.bucket (Some "my-bucket"))
  /\ exists r',
       IResolvable.resolve
         (getResourceNameAttribute (core := Sample.core) "Ref")
         Sample.fromB (Sample.bucket (Some Sample.GENERATE_IF_NEEDED))
       = (Returns LazyPhysicalName, r')
       /\ Resource._physicalName r' = Some "generated:App/StackA/MyBucket".
Proof.
  assert (D : Stack.environment Sample.stackA
              <> Stack.environment Sample.stackB) by discriminate.
  split.
  - exact (proj1 (name_attribute_not_memoized Sample.core
      (Sample.bucket (Some "my-bucket")) "Ref" Sample.fromA Sample.fromB
      eq_refl D)).
  - destruct (proj2 (proj2 (name_attribute_not_memoized Sample.core
      (Sample.bucket (Some Sample.GENERATE_IF_NEEDED)) "Ref"
      Sample.fromA Sample.fromB eq_refl D)) eq_refl)
      as (r' & R & _ & N & _).
    exists r'. split; [exact R | exact N].
Defined.

(** C5, as specified, fails twice.  The bucket constructed without a
    name, read from stack B (another environment on any reading), yields
    no physical name: the resolution throws.  And the resource of stack A
    that its props place in another account, read from stack A, is in
    another environment than its consumer, yet yields [nameAttr] and not
    its physical name. *)
Lemma name_resolution_not_as_specified :
  ~ name_resolution_as_specified (core := Sample.core)
      (Sample.bucket None) Sample.fromB "Ref"
  /\ ~ name_resolution_as_specified (core := Sample.core)
        Sample.foreign Sample.fromA "Ref".
Proof.
  split; intros H; vm_compute in H; discriminate H.
Qed.

(** X20.  A resource constructed with a non-empty name without tokens,
    which is not the marker, keeps that name: a cross-environment request
    returns without generating anything, no sequence of operations changes
    the resource, and its name attribute resolves, from a stack with
    another [environment] string, to the given name. *)
Theorem explicit_name_is_kept
    (core : Core) (scope : IConstruct.t) (id : string)
    (props : ResourceProps.t) (name : string) :
  ResourceProps.physicalName props = Some name ->
  name <> "" ->
  isGeneratedWhenNeededMarker name = false ->
  Token_isUnresolved name = false ->
  Resource._physicalName (Resource_constructor scope id props) = Some name
  /\ _enableCrossEnvironment (Resource_constructor scope id props)
     = (Returns tt, Resource_constructor scope id props)
  /\ (forall ops,
         perform_all ops (Resource_constructor scope id props)
         = Resource_constructor scope id props)
  /\ (forall nameAttr context,
         Stack.environment (Stack_of scope)
         <> Stack.environment (Stack_of (IResolveContext.scope context)) ->
         IResolvable.resolve (getResourceNameAttribute nameAttr) context
           (Resource_constructor scope id props)
         = (Returns (Str name), Resource_constructor scope id props)).
Proof.
  intros E N M U.
  pose proof (constructor_explicit scope id props name E N M U) as C.
  assert (T : JS.truthy_opt
                (Resource._physicalName (Resource_constructor scope id props))
              = true).
  { rewrite C. cbn. now apply truthy_nonempty. }
  assert (A : Resource._allowCrossEnvironment
                (Resource_constructor scope id props) = true)
    by now rewrite C.
  split; [now rewrite C|].
  split; [rewrite enable_allowed by exact A; now rewrite named_truthy|].
  split; [intros ops; now apply perform_all_settled|].
  intros nameAttr context D. apply String.eqb_neq in D.
  rewrite resolve_name_run, A, named_truthy by exact T.
  replace (Resource.stack (Resource_constructor scope id props))
    with (Stack_of scope) by now rewrite C.
  rewrite D. now rewrite C at 1.
Qed.

(** X20 on the sample bucket named [my-bucket]. *)
Lemma explicit_name_is_kept_witness :
  _enableCrossEnvironment (core := Sample.core)
    (Sample.bucket (Some "my-bucket"))
  = (Returns tt, Sample.bucket (Some "my-bucket")).
Proof.
  refine (proj1 (proj2
    (explicit_name_is_kept Sample.core Sample.scopeA "MyBucket"
       (Sample.props_of (Some "my-bucket")) "my-bucket"
       eq_refl _ eq_refl eq_refl))).
  discriminate.
Defined.

(** C7.  The environment of a resource is taken at construction from the
    props, with the account and the region of the owning stack as
    defaults, and no sequence of later operations changes it, nor any
    other [readonly] field; [_enableCrossEnvironment()] changes at most
    [_physicalName]. *)
Theorem environment_snapshot_frozen
    (core : Core) (scope : IConstruct.t) (id : string)
    (props : ResourceProps.t) :
  Resource.env (Resource_constructor scope id props)
  = ResourceEnvironment.mk
      (JS.nullish (ResourceProps.account props)
         (Stack.account (Stack_of scope)))
      (JS.nullish (ResourceProps.region props)
         (Stack.region (Stack_of scope)))
  /\ (forall ops,
         Resource.env (perform_all ops (Resource_constructor scope id props))
         = Resource.env (Resource_constructor scope id props))
  /\ (forall r ops, same_readonly r (perform_all ops r))
  /\ (forall r,
         exists v,
           final (_enableCrossEnvironment r) = Resource.set__physicalName v r).
Proof.
  split; [|split; [|split]].
  - unfold Resource_constructor.
    destruct (JS.and_then _ isGeneratedWhenNeededMarker); [reflexivity|].
    now destruct (JS.and_then _ _).
  - intros ops. apply (perform_all_readonly ops).
  - intros r ops. apply perform_all_readonly.
  - intros r. rewrite enable_run.
    destruct (Resource._allowCrossEnvironment r); cbn.
    + apply named_fields.
    + exists (Resource._physicalName r). now destruct r.
Qed.

(** C8 (amended).  With the empty string as physical name the constructor
    refuses cross-environment references as it does with no name, and the
    two resources agree on path, stack and environment; but the
    [physicalName] property stays the empty string (only an undefined name
    becomes the token for undefined), and [_physicalName] is the empty
    string rather than undefined. *)
Theorem empty_name_construction
    (core : Core) (scope : IConstruct.t) (id : string)
    (account region : option string) :
  let empty :=
    Resource_constructor scope id (ResourceProps.mk (Some "") account region) in
  let absent :=
    Resource_constructor scope id (ResourceProps.mk None account region) in
  Resource._allowCrossEnvironment empty = false
  /\ Resource._allowCrossEnvironment absent = false
  /\ state_of empty = Unset
  /\ state_of absent = Unset
  /\ Resource.physicalName empty = Str ""
  /\ Resource.physicalName absent = UndefinedToken
  /\ Resource._physicalName empty = Some ""
  /\ Resource._physicalName absent = None
  /\ Resource.node_path empty = Resource.node_path absent
  /\ Resource.stack empty = Resource.stack absent
  /\ Resource.env empty = Resource.env absent
  /\ _enableCrossEnvironment empty
     = (Throws (crossEnvironmentError (child_path scope id)), empty)
  /\ _enableCrossEnvironment absent
     = (Throws (crossEnvironmentError (child_path scope id)), absent).
Proof.
  cbv zeta. now repeat split.
Qed.

(** C8, as specified, fails: the [physicalName] of a bucket constructed
    with the empty string is that string, not the token for undefined. *)
Lemma empty_name_keeps_empty_string :
  ~ empty_name_as_specified (core := Sample.core)
      Sample.scopeA "MyBucket" None None.
Proof.
  intros [_ H]. vm_compute in H. discriminate H.
Qed.

(** ** aws-rds: [setupS3ImportExport] and [defaultDeletionProtection] *)

Lemma for_of_grant (access : Rds.Access) (role : Rds.IRole)
    (buckets : list Rds.IBucket) (scope : Rds.Scope) :
  Rds.for_of buckets (fun bucket => Rds.grant access bucket role) scope
  = (Returns tt,
     Rds.mkScope (Rds.roles scope)
       (rev (map (fun bucket => (bucket, access, role)) buckets)
        ++ Rds.grants scope)).
Proof.
  revert scope. induction buckets as [|b bs IH]; intros scope; cbn.
  - now destruct scope.
  - unfold bind. cbn. rewrite IH. cbn. now rewrite <- app_assoc.
Qed.

Lemma nonEmpty_false (buckets : option (list Rds.IBucket)) :
  Rds.nonEmpty buckets = false <-> buckets = None \/ buckets = Some [].
Proof.
  destruct buckets as [[|b bs]|]; cbn; split; auto; try discriminate.
  intros [H | H]; discriminate H.
Qed.

Lemma created_none (scope : Rds.Scope)
    (grants : list (Rds.IBucket * Rds.Access * Rds.IRole)) :
  Rds.created scope (Rds.mkScope (Rds.roles scope) grants) = 0.
Proof. unfold Rds.created. cbn [Rds.roles]. lia. Qed.

Lemma created_same (scope : Rds.Scope) : Rds.created scope scope = 0.
Proof. unfold Rds.created. lia. Qed.

Lemma created_one (scope : Rds.Scope) (role : Rds.IRole)
    (grants : list (Rds.IBucket * Rds.Access * Rds.IRole)) :
  Rds.created scope (Rds.mkScope (role :: Rds.roles scope) grants) = 1.
Proof. unfold Rds.created. cbn [Rds.roles length]. lia. Qed.

Ltac run_setup :=
  unfold Rds.setupS3ImportExport, Rds.grantRead, Rds.grantReadWrite,
    Rds.new_Role, Rds.and_role, outcome, final, bind, ret, throw;
  cbn;
  repeat (rewrite for_of_grant; cbn).

Ltac setup_cases props combineRoles :=
  destruct props as [[ir|] [[|ib ibs]|] [er|] [[|eb ebs]|]];
  destruct combineRoles as [[|]|];
  run_setup.

(** C9.  [setupS3ImportExport] throws the import error exactly when a
    non-empty [s3ImportBuckets] comes with an [s3ImportRole], the export
    error exactly when that is not so and a non-empty [s3ExportBuckets]
    comes with an [s3ExportRole], and nothing else.  With both bucket lists
    absent or empty it returns the two roles of the props and leaves the
    scope as it was.  With [combineRoles] true a role supplied or created
    for one direction is the role of the other, and at most one role is
    created. *)
Theorem setupS3ImportExport_roles
    (props : Rds.DatabaseS3ImportExportProps) (combineRoles : option bool)
    (scope : Rds.Scope) :
  (outcome (Rds.setupS3ImportExport props combineRoles scope)
   = Throws Rds.importError
   <-> Rds.nonEmpty (Rds.s3ImportBuckets props) = true
       /\ Rds.s3ImportRole props <> None)
  /\ (outcome (Rds.setupS3ImportExport props combineRoles scope)
      = Throws Rds.exportError
      <-> ~ (Rds.nonEmpty (Rds.s3ImportBuckets props) = true
             /\ Rds.s3ImportRole props <> None)
          /\ Rds.nonEmpty (Rds.s3ExportBuckets props) = true
          /\ Rds.s3ExportRole props <> None)
  /\ ((exists msg,
          outcome (Rds.setupS3ImportExport props combineRoles scope)
          = Throws msg)
      <-> (Rds.nonEmpty (Rds.s3ImportBuckets props) = true
           /\ Rds.s3ImportRole props <> None)
          \/ (Rds.nonEmpty (Rds.s3ExportBuckets props) = true
              /\ Rds.s3ExportRole props <> None))
  /\ (forall msg,
         outcome (Rds.setupS3ImportExport props combineRoles scope)
         = Throws msg ->
         msg = Rds.importError \/ msg = Rds.exportError)
  /\ (Rds.s3ImportBuckets props = None \/ Rds.s3ImportBuckets props = Some [] ->
      Rds.s3ExportBuckets props = None \/ Rds.s3ExportBuckets props = Some [] ->
      Rds.setupS3ImportExport props combineRoles scope
      = (Returns (Rds.s3ImportRole props, Rds.s3ExportRole props), scope))
  /\ (combineRoles = Some true ->
      forall importRole exportRole scope',
        Rds.setupS3ImportExport props combineRoles scope
        = (Returns (importRole, exportRole), scope') ->
        Rds.created scope scope' <= 1
        /\ (Rds.nonEmpty (Rds.s3ImportBuckets props) = true ->
            forall role, Rds.s3ExportRole props = Some role ->
              importRole = Some role /\ exportRole = Some role
              /\ Rds.created scope scope' = 0)
        /\ (Rds.nonEmpty (Rds.s3ExportBuckets props) = true ->
            forall role, Rds.s3ImportRole props = Some role ->
              importRole = Some role /\ exportRole = Some role
              /\ Rds.created scope scope' = 0)
        /\ (Rds.nonEmpty (Rds.s3ImportBuckets props) = true ->
            Rds.nonEmpty (Rds.s3ExportBuckets props) = true ->
            importRole = Some (Rds.Role "S3ImportRole" "rds.amazonaws.com")
            /\ exportRole = importRole
            /\ Rds.created scope scope' = 1)).
Proof.
  repeat match goal with |- _ /\ _ => split end.
  - setup_cases props combineRoles; split;
      solve [ reflexivity | discriminate | intros [? ?]; congruence
            | intros; split; congruence ].
  - setup_cases props combineRoles; split;
      solve [ discriminate | intros (? & ? & ?); congruence
            | intros (N & ? & ?); exfalso; apply N; split; congruence
            | intros; repeat split; try congruence; intros [? ?]; congruence ].
  - setup_cases props combineRoles; split;
      solve [ intros [msg H]; discriminate H
            | intros [[? ?] | [? ?]]; congruence
            | intros; eexists; reflexivity
            | intros; left; split; congruence
            | intros; right; split; congruence ].
  - intros msg. setup_cases props combineRoles; intros H;
      solve [ discriminate H | injection H as <-; auto ].
  - intros [I | I] [E | E]; destruct props as [ir ib er eb]; cbn in I, E;
      subst; now destruct combineRoles as [[|]|].
  - intros -> importRole exportRole scope'.
    destruct props as [[ir|] [[|ib ibs]|] [er|] [[|eb ebs]|]]; run_setup;
      intros H; try discriminate H; injection H as <- <- <-;
      rewrite ?created_same, ?created_none, ?created_one;
      repeat split; try discriminate; try lia;
      try (intros; congruence);
      try (intros role R; injection R as <-; reflexivity);
      try (intros role R; discriminate R).
Qed.

(** C9 on one import and one export bucket with [combineRoles]. *)
Lemma setupS3ImportExport_roles_witness :
  Rds.created (Rds.mkScope [] [])
    (Rds.mkScope
       [Rds.Role "S3ImportRole" "rds.amazonaws.com"]
       [(Rds.Bucket "out", Rds.ReadWrite,
         Rds.Role "S3ImportRole" "rds.amazonaws.com");
        (Rds.Bucket "in", Rds.Read,
         Rds.Role "S3ImportRole" "rds.amazonaws.com")])
  <= 1.
Proof.
  exact (proj1 (proj2 (proj2 (proj2 (proj2 (proj2
    (setupS3ImportExport_roles
       (Rds.mkProps None (Some [Rds.Bucket "in"])
          None (Some [Rds.Bucket "out"]))
       (Some true) (Rds.mkScope [] []))))))
    eq_refl _ _ _ eq_refl)).
Defined.

(** C10.  [defaultDeletionProtection] returns the [deletionProtection] it
    is given whenever that is defined; when it is undefined the result is
    [true] for [RemovalPolicy.RETAIN] and undefined for every other removal
    policy and for none. *)
Theorem defaultDeletionProtection_defaults
    (removalPolicy : option Rds.RemovalPolicy) :
  (forall b, Rds.defaultDeletionProtection (Some b) removalPolicy = Some b)
  /\ Rds.defaultDeletionProtection None (Some Rds.RETAIN) = Some true
  /\ Rds.defaultDeletionProtection None (Some Rds.DESTROY) = None
  /\ Rds.defaultDeletionProtection None (Some Rds.SNAPSHOT) = None
  /\ Rds.defaultDeletionProtection None None = None
  /\ (removalPolicy <> Some Rds.RETAIN ->
      Rds.defaultDeletionProtection None removalPolicy = None).
Proof.
  repeat split.
  destruct removalPolicy as [[| |]|]; cbn; congruence.
Qed.

(** C10 on [RemovalPolicy.SNAPSHOT]. *)
Lemma defaultDeletionProtection_defaults_witness :
  Rds.defaultDeletionProtection None (Some Rds.SNAPSHOT) = None.
Proof.
  refine (proj2 (proj2 (proj2 (proj2 (proj2
    (defaultDeletionProtection_defaults (Some Rds.SNAPSHOT)))))) _).
  discriminate.
Defined.

(** Without [combineRoles] each direction gets a role of its own; with it
    the import role serves both. *)
Example two_roles_without_combineRoles :
  Rds.setupS3ImportExport
    (Rds.mkProps None (Some [Rds.Bucket "in"]) None (Some [Rds.Bucket "out"]))
    None (Rds.mkScope [] [])
  = (Returns (Some (Rds.Role "S3ImportRole" "rds.amazonaws.com"),
              Some (Rds.Role "S3ExportRole" "rds.amazonaws.com")),
     Rds.mkScope
       [Rds.Role "S3ExportRole" "rds.amazonaws.com";
        Rds.Role "S3ImportRole" "rds.amazonaws.com"]
       [(Rds.Bucket "out", Rds.ReadWrite,
         Rds.Role "S3ExportRole" "rds.amazonaws.com");
        (Rds.Bucket "in", Rds.Read,
         Rds.Role "S3ImportRole" "rds.amazonaws.com")]).
Proof. reflexivity. Qed.

Example one_role_with_combineRoles :
  Rds.setupS3ImportExport
    (Rds.mkProps None (Some [Rds.Bucket "in"]) None (Some [Rds.Bucket "out"]))
    (Some true) (Rds.mkScope [] [])
  = (Returns (Some (Rds.Role "S3ImportRole" "rds.amazonaws.com"),
              Some (Rds.Role "S3ImportRole" "rds.amazonaws.com")),
     Rds.mkScope
       [Rds.Role "S3ImportRole" "rds.amazonaws.com"]
       [(Rds.Bucket "out", Rds.ReadWrite,
         Rds.Role "S3ImportRole" "rds.amazonaws.com");
        (Rds.Bucket "in", Rds.Read,
         Rds.Role "S3ImportRole" "rds.amazonaws.com")]).
Proof. reflexivity. Qed.

Example export_conflict_after_import :
  Rds.setupS3ImportExport
    (Rds.mkProps None (Some [Rds.Bucket "in"])
       (Some (Rds.ExistingRole "mine")) (Some [Rds.Bucket "out"]))
    (Some false) (Rds.mkScope [] [])
  = (Throws Rds.exportError,
     Rds.mkScope
       [Rds.Role "S3ImportRole" "rds.amazonaws.com"]
       [(Rds.Bucket "in", Rds.Read,
         Rds.Role "S3ImportRole" "rds.amazonaws.com")]).
Proof. reflexivity. Qed.

(** ** More on the lifecycle of [Resource] *)

Section MoreResourceFacts.

Context {core : Core}.

Lemma perform_denied (op : Operation) (r : Resource.t) :
  Resource._allowCrossEnvironment r = false -> perform op r = r.
Proof.
  intros A. destruct op; unfold perform, final.
  - now rewrite enable_run, A.
  - rewrite resolve_name_run, A. now destruct (_ =? _).
  - rewrite resolve_arn_run, A. now destruct (_ =? _).
Qed.

Lemma perform_requests (op : Operation) (r : Resource.t) :
  perform op r
  = if Resource._allowCrossEnvironment r && requests r op then named r else r.
Proof.
  destruct op; unfold perform, final, requests, crosses.
  - rewrite enable_run. now destruct (Resource._allowCrossEnvironment r).
  - rewrite resolve_name_run. destruct (_ =? _); cbn.
    + now rewrite andb_false_r.
    + rewrite andb_true_r. now destruct (Resource._allowCrossEnvironment r).
  - rewrite resolve_arn_run. destruct (_ =? _); cbn.
    + now rewrite andb_false_r.
    + rewrite andb_true_r. now destruct (Resource._allowCrossEnvironment r).
Qed.

Lemma requests_named (op : Operation) (r : Resource.t) :
  requests (named r) op = requests r op.
Proof. destruct op; cbn; unfold crosses; now rewrite ?named_stack. Qed.

Lemma perform_all_requests (ops : list Operation) (r : Resource.t) :
  generatePhysicalName r <> "" ->
  perform_all ops r
  = if Resource._allowCrossEnvironment r && existsb (requests r) ops
    then named r else r.
Proof.
  intros G. induction ops as [|op ops IH]; cbn.
  - now rewrite andb_false_r.
  - rewrite perform_requests.
    destruct (Resource._allowCrossEnvironment r) eqn:A; cbn.
    + destruct (requests r op); cbn.
      * apply perform_all_settled. now apply named_settled.
      * now rewrite IH, ?A.
    + now rewrite IH, ?A.
Qed.

Lemma existsb_permutation {A : Type} (f : A -> bool) (l l' : list A) :
  Permutation.Permutation l l' -> existsb f l = existsb f l'.
Proof.
  intros P. induction P; cbn.
  - reflexivity.
  - now rewrite IHP.
  - now rewrite !orb_assoc, (orb_comm (f y)).
  - congruence.
Qed.

End MoreResourceFacts.

(** X1.  A resource without the allowance is never named: whatever sequence of
    cross-environment requests and attribute resolutions follows, the
    resource stays exactly as it is, in state Unset. *)
Theorem unset_is_absorbing
    (core : Core) (r : Resource.t) (ops : list Operation) :
  Resource._allowCrossEnvironment r = false ->
  perform_all ops r = r /\ state_of (perform_all ops r) = Unset.
Proof.
  intros A.
  assert (E : perform_all ops r = r).
  { induction ops as [|op ops IH]; cbn; [reflexivity|].
    now rewrite perform_denied. }
  rewrite E. split; [reflexivity|]. unfold state_of. now rewrite A.
Qed.

(** X2.  The order of operations does not matter: with a generator that
    returns a name, the state after a sequence of operations is the named
    resource when the resource has the allowance and some operation of the
    sequence is a cross-environment request, and the resource itself
    otherwise; so any two orders of the same operations leave the same
    state. *)
Theorem operations_commute
    (core : Core) (r : Resource.t) (ops ops' : list Operation) :
  generatePhysicalName r <> "" ->
  perform_all ops r
  = (if Resource._allowCrossEnvironment r && existsb (requests r) ops
     then named r else r)
  /\ (Permutation.Permutation ops ops' ->
      perform_all ops r = perform_all ops' r).
Proof.
  intros G. split.
  - now apply perform_all_requests.
  - intros P. rewrite !perform_all_requests by exact G.
    now rewrite (existsb_permutation _ _ _ P).
Qed.

(** X3.  A cross-environment reference that succeeds yields a concrete name:
    for a resource made by the constructor and brought anywhere by later
    operations, when the name attribute resolves from another environment,
    the value resolves in turn to the non-empty [_physicalName] of the
    resource, which is the name of the props or the generated one. *)
Theorem cross_reference_yields_name
    (core : Core) (scope : IConstruct.t) (id : string)
    (props : ResourceProps.t) (ops : list Operation)
    (context : IResolveContext.t) (nameAttr : string)
    (v : StrVal) (r' : Resource.t) :
  generatePhysicalName (Resource_constructor scope id props) <> "" ->
  Stack.environment (Stack_of scope)
  <> Stack.environment (Stack_of (IResolveContext.scope context)) ->
  IResolvable.resolve (getResourceNameAttribute nameAttr) context
    (perform_all ops (Resource_constructor scope id props))
  = (Returns v, r') ->
  exists name,
    resolveStr v r' = (Returns (Some name), r')
    /\ name <> ""
    /\ Resource._physicalName r' = Some name
    /\ (ResourceProps.physicalName props = Some name
        \/ name = generatePhysicalName (Resource_constructor scope id props)).
Proof.
  intros G D. apply String.eqb_neq in D.
  set (r0 := Resource_constructor scope id props) in *.
  assert (S0 : Resource.stack r0 = Stack_of scope).
  { unfold r0, Resource_constructor.
    destruct (JS.and_then _ isGeneratedWhenNeededMarker); [reflexivity|].
    now destruct (JS.and_then _ _). }
  destruct (perform_all_readonly ops r0) as (_ & Sr & _ & Pr & Ar).
  rewrite resolve_name_run, Sr, S0, D, Ar, Pr.
  destruct (Resource._allowCrossEnvironment r0) eqn:A0; [|discriminate].
  intros E. injection E as <- <-.
  assert (N : named (perform_all ops r0) = named r0).
  { destruct (perform_all_cases ops r0 G) as [-> | ->]; [reflexivity|].
    apply named_truthy. now apply named_settled. }
  rewrite N.
  destruct (ResourceProps.physicalName props) as [given|] eqn:E.
  - destruct (JS.truthy given) eqn:T.
    + destruct (isGeneratedWhenNeededMarker given) eqn:M.
      * assert (C : r0 = Resource.mk (child_path scope id) (Stack_of scope)
                         (Resource.env r0) LazyPhysicalName None true).
        { apply constructor_marker with (marker := given); auto.
          now apply truthy_nonempty. }
        exists (generatePhysicalName r0).
        assert (Nm : named r0
                     = Resource.set__physicalName
                         (Some (generatePhysicalName r0)) r0).
        { unfold named. now rewrite C at 1. }
        assert (PN : Resource.physicalName r0 = LazyPhysicalName)
          by now rewrite C.
        rewrite Nm, PN. cbn. repeat split; auto.
      * destruct (Token_isUnresolved given) eqn:U.
        -- exfalso. unfold r0 in A0.
           rewrite (constructor_tokens scope id props given E M U) in A0.
           discriminate A0.
        -- assert (C : r0 = Resource.mk (child_path scope id) (Stack_of scope)
                           (Resource.env r0) (Str given) (Some given) true).
           { apply constructor_explicit; auto. now apply truthy_nonempty. }
           exists given.
           assert (Nm : named r0 = r0).
           { apply named_truthy. rewrite C. exact T. }
           assert (PN : Resource.physicalName r0 = Str given)
             by now rewrite C.
           assert (PV : Resource._physicalName r0 = Some given)
             by now rewrite C.
           rewrite Nm, PN, PV. cbn. repeat split; auto.
           now apply truthy_nonempty.
    + exfalso. unfold JS.truthy in T. rewrite negb_false_iff in T.
      apply String.eqb_eq in T. subst given. unfold r0 in A0.
      rewrite (constructor_empty scope id props E) in A0. discriminate A0.
  - exfalso. unfold r0 in A0.
    rewrite (constructor_absent scope id props E) in A0.
    discriminate A0.
Qed.

(** X4.  The marker never becomes the public physical name: [physicalName] is
    the token for undefined exactly when no name was given, the lazy
    token exactly when a non-empty marker was given, and otherwise the
    given string, which is then empty or not the marker. *)
Theorem public_name_cases
    (core : Core) (scope : IConstruct.t) (id : string)
    (props : ResourceProps.t) :
  (Resource.physicalName (Resource_constructor scope id props) = UndefinedToken
   <-> ResourceProps.physicalName props = None)
  /\ (Resource.physicalName (Resource_constructor scope id props)
      = LazyPhysicalName
      <-> exists marker,
            ResourceProps.physicalName props = Some marker
            /\ marker <> ""
            /\ isGeneratedWhenNeededMarker marker = true)
  /\ (forall s,
         Resource.physicalName (Resource_constructor scope id props) = Str s ->
         ResourceProps.physicalName props = Some s
         /\ (s = "" \/ isGeneratedWhenNeededMarker s = false)).
Proof.
  assert (K : forall (pn : StrVal) (given : option string) (marker_ok : Prop),
             (pn = UndefinedToken <-> given = None) ->
             (pn = LazyPhysicalName <-> marker_ok) ->
             (forall s, pn = Str s ->
                given = Some s
                /\ (s = "" \/ isGeneratedWhenNeededMarker s = false)) ->
             (pn = UndefinedToken <-> given = None)
             /\ (pn = LazyPhysicalName <-> marker_ok)
             /\ (forall s, pn = Str s ->
                    given = Some s
                    /\ (s = "" \/ isGeneratedWhenNeededMarker s = false)))
    by (intros; auto).
  apply K; clear K; unfold Resource_constructor;
    destruct (ResourceProps.physicalName props) as [given|]; cbn.
  - destruct (JS.truthy given), (isGeneratedWhenNeededMarker given),
      (negb (Token_isUnresolved given)); cbn; split; discriminate.
  - split; reflexivity.
  - destruct (JS.truthy given) eqn:T; cbn.
    + destruct (isGeneratedWhenNeededMarker given) eqn:M; cbn.
      * split; [intros _|reflexivity].
        exists given. repeat split; auto. now apply truthy_nonempty.
      * destruct (negb (Token_isUnresolved given)); cbn;
          (split; [discriminate|]);
          intros (m & E & _ & Mm); injection E as <-; congruence.
    + split; [discriminate|].
      intros (m & E & Nm & _). injection E as <-.
      apply truthy_nonempty in Nm. congruence.
  - split; [discriminate|]. intros (m & E & _). discriminate E.
  - destruct (JS.truthy given) eqn:T; cbn.
    + destruct (isGeneratedWhenNeededMarker given) eqn:M; cbn.
      * discriminate.
      * destruct (negb (Token_isUnresolved given)); cbn;
          intros s E; injection E as <-; auto.
    + intros s E. injection E as <-. split; [reflexivity|]. left.
      unfold JS.truthy in T. rewrite negb_false_iff in T.
      now apply String.eqb_eq in T.
  - discriminate.
Qed.

(** ** More on aws-rds/lib/private/util.ts *)

Ltac setup_all props combineRoles :=
  destruct props as [[ir|] [[|ib ibs]|] [er|] [[|eb ebs]|]];
  destruct combineRoles as [[|]|];
  run_setup.

(** X5.  On success the grants made are exactly these, on top of the grants
    the scope had: read access on every import bucket for the import role
    returned, and read-write access on every export bucket for the export
    role returned. *)
Theorem setupS3ImportExport_grants
    (props : Rds.DatabaseS3ImportExportProps) (combineRoles : option bool)
    (scope scope' : Rds.Scope) (importRole exportRole : option Rds.IRole) :
  Rds.setupS3ImportExport props combineRoles scope
  = (Returns (importRole, exportRole), scope') ->
  Rds.grants scope'
  = (grants_to Rds.ReadWrite exportRole (Rds.s3ExportBuckets props)
     ++ grants_to Rds.Read importRole (Rds.s3ImportBuckets props)
     ++ Rds.grants scope)%list.
Proof.
  setup_all props combineRoles; intros H; try discriminate H;
    injection H as <- <- <-; unfold grants_to; cbn;
    rewrite <- ?app_assoc; reflexivity.
Qed.

(** X6.  What a failure leaves behind.  The import error is thrown before
    anything is done: the scope is unchanged.  The export error is thrown
    after the import side was set up: when there are import buckets, one
    grant per import bucket stays in the scope, and so does the import
    role when one was created (that is, unless [combineRoles] let the
    supplied export role be reused). *)
Theorem setupS3ImportExport_failure
    (props : Rds.DatabaseS3ImportExportProps) (combineRoles : option bool)
    (scope : Rds.Scope) :
  (outcome (Rds.setupS3ImportExport props combineRoles scope)
   = Throws Rds.importError ->
   final (Rds.setupS3ImportExport props combineRoles scope) = scope)
  /\ (outcome (Rds.setupS3ImportExport props combineRoles scope)
      = Throws Rds.exportError ->
      (Rds.nonEmpty (Rds.s3ImportBuckets props) = false ->
       final (Rds.setupS3ImportExport props combineRoles scope) = scope)
      /\ (Rds.nonEmpty (Rds.s3ImportBuckets props) = true ->
          length (Rds.grants
                    (final (Rds.setupS3ImportExport props combineRoles scope)))
          = length (JS.nullish (Rds.s3ImportBuckets props) [])
            + length (Rds.grants scope)
          /\ Rds.created scope
               (final (Rds.setupS3ImportExport props combineRoles scope))
             = match combineRoles with
               | Some true => 0
               | _ => 1
               end)).
Proof.
  split.
  - setup_all props combineRoles; intros H; try discriminate H;
      reflexivity.
  - setup_all props combineRoles; intros H; try discriminate H;
      (split; intros N; try discriminate N; try reflexivity);
      (split;
       [ rewrite ?length_app, ?length_rev, ?length_map; cbn; lia
       | destruct (length (Rds.roles scope)); cbv beta iota; lia ]).
Qed.

Lemma created_two (scope : Rds.Scope) (first second : Rds.IRole)
    (grants : list (Rds.IBucket * Rds.Access * Rds.IRole)) :
  Rds.created scope (Rds.mkScope (second :: first :: Rds.roles scope) grants)
  = 2.
Proof. unfold Rds.created. cbn [Rds.roles length]. lia. Qed.

(** X7.  Without [combineRoles] (false or not given) the two directions are
    independent: on success each direction that has buckets gets a new
    role of its own, [S3ImportRole] or [S3ExportRole], assumed by
    rds.amazonaws.com, each other direction keeps the role of the props,
    and the number of roles created is the number of directions with
    buckets. *)
Theorem setupS3ImportExport_separate
    (props : Rds.DatabaseS3ImportExportProps) (combineRoles : option bool)
    (scope scope' : Rds.Scope) (importRole exportRole : option Rds.IRole) :
  combineRoles <> Some true ->
  Rds.setupS3ImportExport props combineRoles scope
  = (Returns (importRole, exportRole), scope') ->
  importRole
  = separate_role "S3ImportRole" (Rds.s3ImportRole props)
      (Rds.s3ImportBuckets props)
  /\ exportRole
     = separate_role "S3ExportRole" (Rds.s3ExportRole props)
         (Rds.s3ExportBuckets props)
  /\ Rds.created scope scope'
     = (if Rds.nonEmpty (Rds.s3ImportBuckets props) then 1 else 0)
       + (if Rds.nonEmpty (Rds.s3ExportBuckets props) then 1 else 0).
Proof.
  intros C.
  setup_all props combineRoles; try (now exfalso; apply C);
    intros H; try discriminate H; injection H as <- <- <-;
    rewrite ?created_same, ?created_none, ?created_one, ?created_two;
    unfold separate_role; cbn; repeat split; reflexivity.
Qed.

(** X8.  Whatever [combineRoles] says, on success a role given in the props
    is the role returned for its direction, and a direction has a role
    exactly when the props gave one or it has buckets. *)
Theorem setupS3ImportExport_supplied
    (props : Rds.DatabaseS3ImportExportProps) (combineRoles : option bool)
    (scope scope' : Rds.Scope) (importRole exportRole : option Rds.IRole) :
  Rds.setupS3ImportExport props combineRoles scope
  = (Returns (importRole, exportRole), scope') ->
  (forall role, Rds.s3ImportRole props = Some role -> importRole = Some role)
  /\ (forall role, Rds.s3ExportRole props = Some role ->
                   exportRole = Some role)
  /\ (importRole = None
      <-> Rds.s3ImportRole props = None
          /\ Rds.nonEmpty (Rds.s3ImportBuckets props) = false)
  /\ (exportRole = None
      <-> Rds.s3ExportRole props = None
          /\ Rds.nonEmpty (Rds.s3ExportBuckets props) = false).
Proof.
  setup_all props combineRoles; intros H; try discriminate H;
    injection H as <- <- <-;
    (split; [intros role R; first [discriminate R | exact R]|]);
    (split; [intros role R; first [discriminate R | exact R]|]);
    split; split; try discriminate; try (intros [? ?]; discriminate);
    auto.
Qed.

(** ** [engineDescription] *)

Lemma append_cancel (s a b : string) : s ++ a = s ++ b -> a = b.
Proof.
  induction s as [|c s IH]; cbn; intros H; [exact H|].
  injection H as H. auto.
Qed.

Lemma append_empty (s a : string) : s ++ a = s -> a = "".
Proof.
  intros H. apply (append_cancel s). rewrite H.
  clear. induction s as [|c s IH]; cbn; congruence.
Qed.

(** X9.  [engineDescription] is the engine type alone exactly when the engine
    has no version, or a version with no non-empty full version; otherwise
    it is the type, a dash and the full version.  So engines of one type
    with different non-empty full versions have different descriptions. *)
Theorem engineDescription_cases (engine : RdsEngine.IInstanceEngine) :
  (RdsEngine.engineDescription engine = RdsEngine.engineType engine
   <-> JS.truthy_opt (RdsEngine.version_of engine) = false)
  /\ (forall v,
         RdsEngine.version_of engine = Some v -> v <> "" ->
         RdsEngine.engineDescription engine
         = RdsEngine.engineType engine ++ "-" ++ v)
  /\ (forall other v w,
         RdsEngine.engineType other = RdsEngine.engineType engine ->
         RdsEngine.version_of engine = Some v -> v <> "" ->
         RdsEngine.version_of other = Some w -> w <> "" ->
         RdsEngine.engineDescription other
         = RdsEngine.engineDescription engine ->
         w = v).
Proof.
  assert (D : forall e v,
             RdsEngine.version_of e = Some v -> v <> "" ->
             RdsEngine.engineDescription e
             = RdsEngine.engineType e ++ "-" ++ v).
  { intros e v V N. unfold RdsEngine.engineDescription. rewrite V. cbn.
    apply truthy_nonempty in N. now rewrite N. }
  split; [|split].
  - unfold RdsEngine.engineDescription.
    destruct (JS.truthy_opt (RdsEngine.version_of engine)); split;
      try discriminate; try reflexivity.
    + intros H. apply append_empty in H. discriminate H.
    + intros _. clear. induction (RdsEngine.engineType engine); cbn;
        congruence.
  - apply D.
  - intros other v w Ty V Nv W Nw E.
    rewrite (D engine v V Nv), (D other w W Nw), Ty in E.
    apply append_cancel in E. now injection E.
Qed.

(** ** cdk-assets: the runs of [ContainerImageAssetHandler.publish] *)

Lemma every_run_sound {A : Type} (p : Assets.Async A)
    (P : list Assets.Event -> Assets.Settled A -> Prop) :
  Assets.every_run p P ->
  forall world past,
    P (fst (Assets.run world p past)) (snd (Assets.run world p past)).
Proof.
  revert P. induction p as [a | e | c k IH]; intros P H world past.
  - exact H.
  - exact H.
  - cbn. apply (IH _ _ (H (world past c))).
Qed.

Lemma every_trace {A : Type} (p : Assets.Async A)
    (P : list Assets.Event -> Assets.Settled A -> Prop) :
  Assets.every_run p P ->
  forall world, P (Assets.trace world p) (Assets.settles world p).
Proof. intros H world. exact (every_run_sound p P H world []). Qed.

Ltac explore_step :=
  match goal with
  | |- forall r : Assets.Settled _, _ =>
      let r := fresh "r" in intros r; destruct r
  | |- forall r : bool, _ => let r := fresh "r" in intros r; destruct r
  | |- forall r : unit, _ => let r := fresh "r" in intros r; destruct r
  | |- Assets.every_run (if negb (JS.truthy_opt ?u) then _ else _) _ =>
      let U := fresh "U" in destruct u eqn:U
  | |- Assets.every_run (Assets.bind (if ?b then _ else _) _) _ =>
      let B := fresh "B" in destruct b eqn:B
  | |- Assets.every_run (if negb ?b then _ else _) _ =>
      let B := fresh "B" in destruct b eqn:B
  | |- Assets.every_run (if ?b then _ else _) _ =>
      let B := fresh "B" in destruct b eqn:B
  end.

Ltac explore :=
  repeat (cbn -[append JS.truthy Assets.first_uri Assets.code_differs
                Assets.localTagName Assets.last_events];
          explore_step);
  cbn -[append JS.truthy Assets.first_uri Assets.code_differs
        Assets.localTagName Assets.last_events].

Ltac units := repeat match goal with u : unit |- _ => destruct u end.

Ltac all_runs :=
  match goal with
  | |- context [Assets.trace ?w ?p] =>
      pattern (Assets.trace w p), (Assets.settles w p);
      apply every_trace; explore; units
  end.

Ltac split_in :=
  repeat match goal with
         | H : _ \/ _ |- _ => destruct H as [H | H]
         | H : False |- _ => destruct H
         | H : (_, _) = (_, _) |- _ =>
             first [ discriminate H | injection H as ? ?; subst ]
         | H : (_, _) = ?ev |- _ => subst ev
         end.

Ltac use_tests :=
  repeat match goal with
         | H : ?x = _, C : context [?x] |- _ =>
             match x with
             | Assets.code_differs _ _ => idtac
             | JS.truthy _ => idtac
             | Assets.first_uri _ => idtac
             end;
             rewrite H in C
         end.

Ltac same_answers :=
  repeat match goal with
         | H : Assets.Failed _ = Assets.Failed _ |- _ =>
             injection H as ?; subst
         | H : Assets.FulfilledRepositories _ = Assets.FulfilledRepositories _
           |- _ => injection H as ?; subst
         end.

Ltac tidy :=
  cbn -[append JS.truthy Assets.first_uri Assets.code_differs
        Assets.localTagName Assets.last_events] in *.

Ltac leaf :=
  split_in; tidy; use_tests; tidy; use_tests; tidy; try discriminate;
  same_answers.

Example publish_fresh_image :
  Assets.sample_publish Assets.fresh_image
  = ([(Assets.ReplaceAwsPlaceholders
         (Assets.mkDestination "cdk-assets" "ab12cd"),
       Assets.FulfilledDestination
         (Assets.mkDestination "cdk-assets" "ab12cd"));
      (Assets.EcrClient (Assets.mkDestination "cdk-assets" "ab12cd"),
       Assets.FulfilledClient (Assets.ecr_client 0));
      (Assets.DescribeRepositories (Assets.ecr_client 0) ["cdk-assets"],
       Assets.FulfilledRepositories
         (Some [Assets.mkRepository (Some Assets.sample_uri)]));
      (Assets.EmitMessage Assets.CHECK
         "Check 111111111111.dkr.ecr.us-east-1.amazonaws.com/cdk-assets",
       Assets.Nothing);
      (Assets.DescribeImages (Assets.ecr_client 0) "cdk-assets" ["ab12cd"],
       Assets.Failed (Assets.not_found "ImageNotFoundException"));
      (Assets.Aborted, Assets.Flag false);
      (Assets.DockerExists "cdkasset-ab12cd", Assets.FulfilledFlag false);
      (Assets.EmitMessage Assets.BUILD "Building Docker image at /work/app",
       Assets.Nothing);
      (Assets.DockerBuild
         (Assets.mkBuild "/work/app" "cdkasset-ab12cd" None None
            (Some "Dockerfile")),
       Assets.Fulfilled);
      (Assets.EmitMessage Assets.UPLOAD
         "Push 111111111111.dkr.ecr.us-east-1.amazonaws.com/cdk-assets",
       Assets.Nothing);
      (Assets.Aborted, Assets.Flag false);
      (Assets.DockerTag "cdkasset-ab12cd" Assets.sample_uri,
       Assets.Fulfilled);
      (Assets.DockerLogin (Assets.ecr_client 0), Assets.Fulfilled);
      (Assets.DockerPush Assets.sample_uri, Assets.Fulfilled)],
     Assets.Resolved tt).
Proof. reflexivity. Qed.


Ltac each_command :=
  let c := fresh "c" in
  let Hc := fresh "Hc" in
  intros c Hc; cbn in Hc;
  repeat destruct Hc as [Hc | Hc]; subst; try reflexivity; try contradiction.

Ltac member := cbn; repeat (first [left; reflexivity | right]).

Lemma code_differs_false (e : Assets.Exn) (name : string) :
  Assets.code_differs e name = false <-> Assets.code e = Some name.
Proof.
  unfold Assets.code_differs. destruct (Assets.code e) as [c|].
  - rewrite negb_false_iff, String.eqb_eq. split; congruence.
  - split; discriminate.
Qed.

Section HandlerFacts.

Context {runtime : Assets.Runtime}.

Variables (workDir : string) (asset : Assets.DockerImageManifestEntry).

(** X10.  The progress messages that [publish] itself emits (the DEBUG
    lines the [Docker] wrapper logs through its callback apart) come in
    one of seven orders: CHECK always first, FOUND only directly after it,
    and UPLOAD only after CACHED or BUILD. *)
Theorem publish_messages_in_order (world : Assets.World) :
  In (Assets.messages (Assets.trace world (Assets.publish workDir asset)))
    [[]; [Assets.CHECK]; [Assets.CHECK; Assets.FOUND];
     [Assets.CHECK; Assets.CACHED]; [Assets.CHECK; Assets.BUILD];
     [Assets.CHECK; Assets.CACHED; Assets.UPLOAD];
     [Assets.CHECK; Assets.BUILD; Assets.UPLOAD]].
Proof.
  all_runs.
  all: solve [repeat (first [left; reflexivity | right])].
Qed.

(** X11.  A rejection by a collaborator, other than the two not-found codes
    that [repositoryUri] and [imageExists] catch, ends the run: it is the
    last event, and [publish] rejects with the same value. *)
Theorem publish_fails_fast
    (world : Assets.World) (ev : Assets.Event) (e : Assets.Exn) :
  In ev (Assets.trace world (Assets.publish workDir asset)) ->
  snd ev = Assets.Failed e ->
  Assets.caught ev = false ->
  Assets.settles world (Assets.publish workDir asset) = Assets.Rejected e
  /\ Assets.last_events 1 (Assets.trace world (Assets.publish workDir asset))
     = [ev].
Proof.
  revert ev e. all_runs.
  all: intros ev e' I F C; leaf.
  all: solve [split; reflexivity].
Qed.

(** X12.  When [describeRepositories] yields no repository URI (it rejects with
    RepositoryNotFoundException, or returns no repository, or a first
    repository without a non-empty URI), [publish] rejects with the
    missing-repository error that quotes the repository name, after three
    commands: no message was emitted and docker was not run. *)
Theorem publish_missing_repository
    (world : Assets.World) (client : Assets.ECR) (names : list string)
    (a : Assets.Answer) :
  In (Assets.DescribeRepositories client names, a)
    (Assets.trace world (Assets.publish workDir asset)) ->
  Assets.no_uri a = true ->
  exists d,
    Assets.trace world (Assets.publish workDir asset)
    = [(Assets.ReplaceAwsPlaceholders (Assets.destination asset),
        Assets.FulfilledDestination d);
       (Assets.EcrClient d, Assets.FulfilledClient client);
       (Assets.DescribeRepositories client [Assets.repositoryName d], a)]
    /\ Assets.settles world (Assets.publish workDir asset)
       = Assets.Rejected
           (Assets.Error
              ("No ECR repository with name '" ++ Assets.repositoryName d
               ++ "' in account. Is this account bootstrapped?")).
Proof.
  revert client names a. all_runs.
  all: intros client names a' I N; leaf.
  all: solve [eexists; split; reflexivity].
Qed.

(** X13.  When [describeImages] resolves, the image is already published:
    [publish] resolves right after the FOUND message for the URI it
    checked, and docker is never run. *)
Theorem publish_found
    (world : Assets.World) (client : Assets.ECR) (repository : string)
    (tags : list string) :
  In (Assets.DescribeImages client repository tags, Assets.Fulfilled)
    (Assets.trace world (Assets.publish workDir asset)) ->
  Assets.settles world (Assets.publish workDir asset) = Assets.Resolved tt
  /\ (forall c,
         In c (Assets.commands
                 (Assets.trace world (Assets.publish workDir asset))) ->
         Assets.is_docker c = false)
  /\ exists uri,
       Assets.last_events 3
         (Assets.trace world (Assets.publish workDir asset))
       = [(Assets.EmitMessage Assets.CHECK ("Check " ++ uri), Assets.Nothing);
          (Assets.DescribeImages client repository tags, Assets.Fulfilled);
          (Assets.EmitMessage Assets.FOUND ("Found " ++ uri), Assets.Nothing)].
Proof.
  revert client repository tags. all_runs.
  all: intros client repository tags I; leaf.
  all: split; [reflexivity | split; [each_command | eexists; reflexivity]].
Qed.

(** X14.  When the host reports [aborted], [publish] resolves at once: the read
    is the last event and nothing was tagged, logged in or pushed; when no
    UPLOAD message was emitted before, docker was not run at all. *)
Theorem publish_aborted (world : Assets.World) :
  In (Assets.Aborted, Assets.Flag true)
    (Assets.trace world (Assets.publish workDir asset)) ->
  Assets.settles world (Assets.publish workDir asset) = Assets.Resolved tt
  /\ Assets.last_events 1 (Assets.trace world (Assets.publish workDir asset))
     = [(Assets.Aborted, Assets.Flag true)]
  /\ (forall c,
         In c (Assets.commands
                 (Assets.trace world (Assets.publish workDir asset))) ->
         Assets.is_upload c = false)
  /\ (~ In Assets.UPLOAD
          (Assets.messages
             (Assets.trace world (Assets.publish workDir asset))) ->
      forall c,
        In c (Assets.commands
                (Assets.trace world (Assets.publish workDir asset))) ->
        Assets.is_docker c = false).
Proof.
  all_runs.
  all: intros I; leaf.
  all: split; [reflexivity | split; [reflexivity | split; [each_command |]]].
  all: intros N; first [solve [each_command] | exfalso; apply N; member].
Qed.

(** X15.  Every push follows the same protocol: the run ends with the UPLOAD
    message, a read of [aborted] that answers false, the tag of the local
    image to the URI, the login at the client [ecrClient] returned, and
    the push, and [publish] settles as the push does.  The URI is the
    non-empty URI of the first repository [describeRepositories]
    returned, and the one the CHECK message named. *)
Theorem publish_push_protocol
    (world : Assets.World) (uri : string) (a : Assets.Answer) :
  In (Assets.DockerPush uri, a)
    (Assets.trace world (Assets.publish workDir asset)) ->
  exists client repositories,
    Assets.last_events 5 (Assets.trace world (Assets.publish workDir asset))
    = [(Assets.EmitMessage Assets.UPLOAD ("Push " ++ uri), Assets.Nothing);
       (Assets.Aborted, Assets.Flag false);
       (Assets.DockerTag (Assets.localTagName asset) uri, Assets.Fulfilled);
       (Assets.DockerLogin client, Assets.Fulfilled);
       (Assets.DockerPush uri, a)]
    /\ In (Assets.FulfilledClient client)
         (map snd (Assets.trace world (Assets.publish workDir asset)))
    /\ In (Assets.FulfilledRepositories repositories)
         (map snd (Assets.trace world (Assets.publish workDir asset)))
    /\ Assets.first_uri repositories = Some uri
    /\ uri <> ""
    /\ In (Assets.EmitMessage Assets.CHECK ("Check " ++ uri))
         (Assets.commands (Assets.trace world (Assets.publish workDir asset)))
    /\ (a = Assets.Fulfilled ->
        Assets.settles world (Assets.publish workDir asset)
        = Assets.Resolved tt)
    /\ (forall e, a = Assets.Failed e ->
        Assets.settles world (Assets.publish workDir asset)
        = Assets.Rejected e).
Proof.
  revert uri a. all_runs.
  all: intros uri a' I; leaf.
  all: do 2 eexists.
  all: split; [reflexivity|].
  all: split; [member|].
  all: split; [member|].
  all: split; [eassumption|].
  all: split; [now apply truthy_nonempty|].
  all: split; [member|].
  all: split; [intros E | intros e' E];
    first [reflexivity | discriminate E | now injection E as <-].
Qed.

(** X16.  The local image is built exactly when [docker.exists] answers false
    for the local tag; the build gets the directory joined to the work
    directory, the local tag and the build arguments, target and file of
    the asset's source, and follows the BUILD message.  When
    [docker.exists] answers true the CACHED message is emitted instead. *)
Theorem publish_builds_when_missing (world : Assets.World) :
  ((exists options a,
       In (Assets.DockerBuild options, a)
         (Assets.trace world (Assets.publish workDir asset)))
   <-> In (Assets.DockerExists (Assets.localTagName asset),
           Assets.FulfilledFlag false)
         (Assets.trace world (Assets.publish workDir asset)))
  /\ (forall options a,
         In (Assets.DockerBuild options, a)
           (Assets.trace world (Assets.publish workDir asset)) ->
         options
         = Assets.mkBuild
             (Assets.path_join workDir
                (Assets.directory (Assets.source asset)))
             (Assets.localTagName asset)
             (Assets.dockerBuildArgs (Assets.source asset))
             (Assets.dockerBuildTarget (Assets.source asset))
             (Assets.dockerFile (Assets.source asset))
         /\ In Assets.BUILD
              (Assets.messages
                 (Assets.trace world (Assets.publish workDir asset))))
  /\ (forall tag,
         In (Assets.DockerExists tag, Assets.FulfilledFlag true)
           (Assets.trace world (Assets.publish workDir asset)) ->
         In Assets.CACHED
           (Assets.messages
              (Assets.trace world (Assets.publish workDir asset)))
         /\ forall options a,
              ~ In (Assets.DockerBuild options, a)
                  (Assets.trace world (Assets.publish workDir asset))).
Proof.
  all_runs.
  all: split;
    [ split;
      [ intros (options & a' & I); leaf; member
      | intros I; leaf; do 2 eexists; member ]
    | split;
      [ intros options a' I; leaf; (split; [reflexivity | member])
      | intros tag I; leaf;
        (split; [member | intros options a' I2; leaf]) ] ].
Qed.

(** X17.  How [publish] settles.  It resolves only after the FOUND message, a
    read of [aborted] that answered true, or a push that resolved.  It
    rejects only with the value a collaborator rejected with in the last
    event, or with the missing-repository error after three commands. *)
Theorem publish_outcomes (world : Assets.World) :
  (Assets.settles world (Assets.publish workDir asset) = Assets.Resolved tt ->
   exists ev,
     Assets.last_events 1 (Assets.trace world (Assets.publish workDir asset))
     = [ev]
     /\ ((exists m, ev = (Assets.EmitMessage Assets.FOUND m, Assets.Nothing))
         \/ ev = (Assets.Aborted, Assets.Flag true)
         \/ (exists uri, ev = (Assets.DockerPush uri, Assets.Fulfilled))))
  /\ (forall e,
         Assets.settles world (Assets.publish workDir asset)
         = Assets.Rejected e ->
         (exists c,
             Assets.last_events 1
               (Assets.trace world (Assets.publish workDir asset))
             = [(c, Assets.Failed e)])
         \/ (exists d,
                e = Assets.noRepositoryError (Assets.repositoryName d)
                /\ length (Assets.trace world (Assets.publish workDir asset))
                   = 3)).
Proof.
  all_runs.
  all: split; [intros E | intros e' E]; try discriminate E.
  all: try (injection E as <-).
  all: try solve [left; eexists; reflexivity].
  all: try solve [right; eexists; split; reflexivity].
  all: eexists; (split; [reflexivity|]); eauto.
Qed.

(** X18.  [imageExists] asks [describeImages] once, for the one tag.  It
    resolves to true when the call resolves, to false when the call
    rejects with the code ImageNotFoundException, and rejects with the
    same value for any other rejection, a value without code included. *)
Theorem imageExists_answers
    (world : Assets.World) (client : Assets.ECR) (repository tag : string) :
  exists a,
    Assets.trace world (Assets.imageExists client repository tag)
    = [(Assets.DescribeImages client repository [tag], a)]
    /\ ((a = Assets.Fulfilled
         /\ Assets.settles world (Assets.imageExists client repository tag)
            = Assets.Resolved true)
        \/ (exists e,
               a = Assets.Failed e
               /\ Assets.code e = Some "ImageNotFoundException"
               /\ Assets.settles world
                    (Assets.imageExists client repository tag)
                  = Assets.Resolved false)
        \/ (exists e,
               a = Assets.Failed e
               /\ Assets.code e <> Some "ImageNotFoundException"
               /\ Assets.settles world
                    (Assets.imageExists client repository tag)
                  = Assets.Rejected e)).
Proof.
  unfold Assets.trace, Assets.settles, Assets.imageExists. cbn.
  destruct (world [] (Assets.DescribeImages client repository [tag]))
    as [[]|e]; cbn.
  - eexists. split; [reflexivity|]. now left.
  - destruct (Assets.code_differs e "ImageNotFoundException") eqn:D; cbn.
    + eexists. split; [reflexivity|]. right. right. exists e.
      repeat split. intros C. apply code_differs_false in C. congruence.
    + eexists. split; [reflexivity|]. right. left. exists e.
      repeat split. now apply code_differs_false.
Qed.

(** X19.  [repositoryUri] asks [describeRepositories] once, for the one name.
    It resolves to the URI of the first repository of the answer, and to
    undefined when there is no repository list, an empty one, or when the
    call rejects with the code RepositoryNotFoundException; any other
    rejection is passed on. *)
Theorem repositoryUri_answers
    (world : Assets.World) (client : Assets.ECR) (repository : string) :
  (exists a,
      Assets.trace world (Assets.repositoryUri_of client repository)
      = [(Assets.DescribeRepositories client [repository], a)]
      /\ ((exists repositories,
              a = Assets.FulfilledRepositories repositories
              /\ Assets.settles world
                   (Assets.repositoryUri_of client repository)
                 = Assets.Resolved (Assets.first_uri repositories))
          \/ (exists e,
                 a = Assets.Failed e
                 /\ Assets.code e = Some "RepositoryNotFoundException"
                 /\ Assets.settles world
                      (Assets.repositoryUri_of client repository)
                    = Assets.Resolved None)
          \/ (exists e,
                 a = Assets.Failed e
                 /\ Assets.code e <> Some "RepositoryNotFoundException"
                 /\ Assets.settles world
                      (Assets.repositoryUri_of client repository)
                    = Assets.Rejected e)))
  /\ Assets.first_uri None = None
  /\ Assets.first_uri (Some []) = None
  /\ (forall first others,
         Assets.first_uri (Some (first :: others))
         = Assets.repositoryUri first).
Proof.
  split; [|now repeat split].
  unfold Assets.trace, Assets.settles, Assets.repositoryUri_of. cbn.
  destruct (world [] (Assets.DescribeRepositories client [repository]))
    as [repositories|e]; cbn.
  - eexists. split; [reflexivity|]. left. now exists repositories.
  - destruct (Assets.code_differs e "RepositoryNotFoundException") eqn:D; cbn.
    + eexists. split; [reflexivity|]. right. right. exists e.
      repeat split. intros C. apply code_differs_false in C. congruence.
    + eexists. split; [reflexivity|]. right. left. exists e.
      repeat split. now apply code_differs_false.
Qed.

End HandlerFacts.

(** ** The properties above at work on the samples *)

(** A bucket without a name stays as it is under two requests. *)
Lemma unset_is_absorbing_witness :
  perform_all (core := Sample.core)
    [EnableCrossEnvironment; ResolveName "Ref" Sample.fromB]
    (Sample.bucket None)
  = Sample.bucket None.
Proof.
  exact (proj1 (unset_is_absorbing Sample.core (Sample.bucket None)
                  [EnableCrossEnvironment; ResolveName "Ref" Sample.fromB]
                  eq_refl)).
Defined.

(** Two orders of a request and a resolution on the marker bucket. *)
Lemma operations_commute_witness :
  perform_all (core := Sample.core)
    [ResolveName "Ref" Sample.fromB; EnableCrossEnvironment]
    (Sample.bucket (Some Sample.GENERATE_IF_NEEDED))
  = perform_all (core := Sample.core)
      [EnableCrossEnvironment; ResolveName "Ref" Sample.fromB]
      (Sample.bucket (Some Sample.GENERATE_IF_NEEDED)).
Proof.
  refine (proj2 (operations_commute Sample.core
                   (Sample.bucket (Some Sample.GENERATE_IF_NEEDED))
                   [ResolveName "Ref" Sample.fromB; EnableCrossEnvironment]
                   [EnableCrossEnvironment; ResolveName "Ref" Sample.fromB]
                   _)
            (perm_swap _ _ [])).
  discriminate.
Defined.

(** The marker bucket, referenced from stack B after a reference from
    stack A. *)
Lemma cross_reference_yields_name_witness :
  exists name,
    name <> ""
    /\ Resource._physicalName
         (Resource.set__physicalName (Some "generated:App/StackA/MyBucket")
            (Sample.bucket (Some Sample.GENERATE_IF_NEEDED)))
       = Some name.
Proof.
  destruct (cross_reference_yields_name Sample.core Sample.scopeA "MyBucket"
              (Sample.props_of (Some Sample.GENERATE_IF_NEEDED))
              [ResolveName "Ref" Sample.fromA] Sample.fromB "Ref"
              LazyPhysicalName
              (Resource.set__physicalName
                 (Some "generated:App/StackA/MyBucket")
                 (Sample.bucket (Some Sample.GENERATE_IF_NEEDED))))
    as (name & _ & N & P & _).
  - discriminate.
  - discriminate.
  - reflexivity.
  - exists name. split; assumption.
Defined.

(** One import and one export bucket, with one role for both. *)
Lemma setupS3ImportExport_grants_witness :
  [(Rds.Bucket "out", Rds.ReadWrite,
    Rds.Role "S3ImportRole" "rds.amazonaws.com");
   (Rds.Bucket "in", Rds.Read,
    Rds.Role "S3ImportRole" "rds.amazonaws.com")]
  = (grants_to Rds.ReadWrite
       (Some (Rds.Role "S3ImportRole" "rds.amazonaws.com"))
       (Some [Rds.Bucket "out"])
     ++ grants_to Rds.Read
          (Some (Rds.Role "S3ImportRole" "rds.amazonaws.com"))
          (Some [Rds.Bucket "in"])
     ++ [])%list.
Proof.
  exact (setupS3ImportExport_grants
           (Rds.mkProps None (Some [Rds.Bucket "in"])
              None (Some [Rds.Bucket "out"]))
           (Some true) (Rds.mkScope [] []) _ _ _ eq_refl).
Defined.

(** An export role supplied with export buckets, after import buckets. *)
Lemma setupS3ImportExport_failure_witness :
  length
    (Rds.grants
       (final
          (Rds.setupS3ImportExport
             (Rds.mkProps None (Some [Rds.Bucket "in"])
                (Some (Rds.ExistingRole "mine")) (Some [Rds.Bucket "out"]))
             (Some false) (Rds.mkScope [] []))))
  = 1 + 0.
Proof.
  exact (proj1 (proj2 (proj2 (setupS3ImportExport_failure
           (Rds.mkProps None (Some [Rds.Bucket "in"])
              (Some (Rds.ExistingRole "mine")) (Some [Rds.Bucket "out"]))
           (Some false) (Rds.mkScope [] [])) eq_refl) eq_refl)).
Defined.

(** Import buckets only, without [combineRoles]. *)
Lemma setupS3ImportExport_separate_witness :
  Some (Rds.Role "S3ImportRole" "rds.amazonaws.com")
  = separate_role "S3ImportRole" None (Some [Rds.Bucket "in"]).
Proof.
  refine (proj1 (setupS3ImportExport_separate
                   (Rds.mkProps None (Some [Rds.Bucket "in"])
                      (Some (Rds.ExistingRole "mine")) None)
                   None (Rds.mkScope [] []) _ _ _ _ eq_refl)).
  discriminate.
Defined.

(** An export role supplied, reused for the import buckets. *)
Lemma setupS3ImportExport_supplied_witness :
  Some (Rds.ExistingRole "mine") = Some (Rds.ExistingRole "mine").
Proof.
  exact (proj1 (proj2 (setupS3ImportExport_supplied
           (Rds.mkProps None (Some [Rds.Bucket "in"])
              (Some (Rds.ExistingRole "mine")) None)
           (Some true) (Rds.mkScope [] []) _
           (Some (Rds.ExistingRole "mine")) (Some (Rds.ExistingRole "mine"))
           eq_refl))
         (Rds.ExistingRole "mine") eq_refl).
Defined.

(** A MySQL engine with and without a full version. *)
Lemma engineDescription_cases_witness :
  RdsEngine.engineDescription
    (RdsEngine.mkEngine "mysql"
       (Some (RdsEngine.mkVersion (Some "8.0.19"))))
  = "mysql-8.0.19".
Proof.
  refine (proj1 (proj2 (engineDescription_cases
            (RdsEngine.mkEngine "mysql"
               (Some (RdsEngine.mkVersion (Some "8.0.19"))))))
            "8.0.19" eq_refl _).
  discriminate.
Defined.

(** The build fails: [publish] rejects with the error of the build. *)
Lemma publish_fails_fast_witness :
  Assets.sample_outcome Assets.build_fails
  = Assets.Rejected (Assets.Error "build failed").
Proof.
  refine (proj1 (publish_fails_fast (runtime := Assets.sample_runtime)
                   "/work" Assets.sample_asset
                   (Assets.scripted Assets.build_fails)
                   (Assets.DockerBuild
                      (Assets.mkBuild "/work/app" "cdkasset-ab12cd" None None
                         (Some "Dockerfile")),
                    Assets.Failed (Assets.Error "build failed"))
                   (Assets.Error "build failed") _ eq_refl eq_refl)).
  member.
Defined.

(** No repository: three commands and the error. *)
Lemma publish_missing_repository_witness :
  exists d,
    Assets.sample_outcome Assets.no_repository
    = Assets.Rejected
        (Assets.Error
           ("No ECR repository with name '" ++ Assets.repositoryName d
            ++ "' in account. Is this account bootstrapped?")).
Proof.
  destruct (publish_missing_repository (runtime := Assets.sample_runtime)
              "/work" Assets.sample_asset
              (Assets.scripted Assets.no_repository)
              (Assets.ecr_client 0) ["cdk-assets"]
              (Assets.Failed (Assets.not_found "RepositoryNotFoundException")))
    as (d & _ & E).
  - member.
  - reflexivity.
  - exists d. exact E.
Defined.

(** The image is there: [publish] resolves. *)
Lemma publish_found_witness :
  Assets.sample_outcome Assets.published = Assets.Resolved tt.
Proof.
  refine (proj1 (publish_found (runtime := Assets.sample_runtime)
                   "/work" Assets.sample_asset
                   (Assets.scripted Assets.published)
                   (Assets.ecr_client 0) "cdk-assets" ["ab12cd"] _)).
  member.
Defined.

(** The host aborts during the build: nothing is pushed. *)
Lemma publish_aborted_witness :
  Assets.last_events 1 (Assets.sample_trace Assets.aborted_during_build)
  = [(Assets.Aborted, Assets.Flag true)].
Proof.
  refine (proj1 (proj2 (publish_aborted (runtime := Assets.sample_runtime)
                   "/work" Assets.sample_asset
                   (Assets.scripted Assets.aborted_during_build) _))).
  member.
Defined.

(** A fresh image is pushed, and [publish] resolves. *)
Lemma publish_push_protocol_witness :
  Assets.sample_outcome Assets.fresh_image = Assets.Resolved tt.
Proof.
  destruct (publish_push_protocol (runtime := Assets.sample_runtime)
              "/work" Assets.sample_asset
              (Assets.scripted Assets.fresh_image)
              Assets.sample_uri Assets.Fulfilled)
    as (client & repositories & _ & _ & _ & _ & _ & _ & R & _).
  - member.
  - exact (R eq_refl).
Defined.
